(** * Suvidhaa booking marketplace: the route handlers of [server.js]

    A shallow embedding of the Express route handlers of [server.js] over a
    functional model of the document store they talk to, followed by the
    properties of the handlers.

    Conventions of the model.
    - A collection is the list of its documents in insertion order.
    - A request body field is a [jsval]; [JUndefined] is an absent field.
      JSON [null], nested objects and non-integer numbers are not part of
      the model.
    - JavaScript strings are [string]s of 8-bit characters; case folding is
      the ASCII one.
    - Numbers are integers ([Z]), printed in plain decimal; dates are
      milliseconds since the epoch.
    - An [await] that rejects is a [Throw]; the [try]/[catch] of a handler
      turns it into the 500 response.  Store writes made before the throw
      stay.  Failures of the connection itself are not modelled. *)

From Stdlib Require Import ZArith NArith List String Ascii Bool Lia.
From Stdlib Require Import Permutation Sorted.
Import ListNotations.

Local Open Scope string_scope.
Local Open Scope list_scope.

(* ================================================================= *)
(** ** JavaScript values and the primitives the handlers use *)

Module JS.

#[warnings="-register-all"]
Inductive jsval : Type :=
| JUndefined
| JBool (b : bool)
| JNum (n : Z)
| JStr (s : string)
| JArr (l : list jsval).

(** [!v] is [negb (truthy v)]. *)
Definition truthy (v : jsval) : bool :=
  match v with
  | JUndefined => false
  | JBool b => b
  | JNum n => negb (n =? 0)%Z
  | JStr s => negb (s =? EmptyString)
  | JArr _ => true
  end.

(** [v.length]: [None] stands for [undefined]. *)
Definition length_of (v : jsval) : option nat :=
  match v with
  | JStr s => Some (String.length s)
  | JArr l => Some (List.length l)
  | _ => None
  end.

(** [v.length < k]; a comparison with [undefined] is false. *)
Definition length_lt (v : jsval) (k : nat) : bool :=
  match length_of v with
  | Some n => (n <? k)%nat
  | None => false
  end.

(** *** Characters and strings *)

Definition is_upper (c : ascii) : bool :=
  let n := nat_of_ascii c in ((65 <=? n) && (n <=? 90))%nat.

Definition lower_ascii (c : ascii) : ascii :=
  if is_upper c then ascii_of_nat (nat_of_ascii c + 32) else c.

Fixpoint toLowerCase (s : string) : string :=
  match s with
  | EmptyString => EmptyString
  | String c r => String (lower_ascii c) (toLowerCase r)
  end.

(** [s.slice(-k)]: the last [k] characters, the whole string when it is
    shorter. *)
Definition slice_last (k : nat) (s : string) : string :=
  substring (String.length s - k) k s.

(** [s.split(sep)] on a one-character separator. *)
Fixpoint split (sep : ascii) (s : string) : list string :=
  match s with
  | EmptyString => [EmptyString]
  | String c r =>
      if (c =? sep)%char then EmptyString :: split sep r
      else match split sep r with
           | w :: ws => String c w :: ws
           | [] => [String c EmptyString]
           end
  end.

(** [s.startsWith(p)] at every offset: [s.includes(p)]. *)
Fixpoint includes (p s : string) : bool :=
  prefix p s ||
  match s with
  | EmptyString => false
  | String _ r => includes p r
  end.

(** *** Number.prototype.toString, on integers *)

Definition digit (d : Z) : ascii := ascii_of_nat (48 + Z.to_nat d).

(** Decimal digits, least significant first. *)
Fixpoint digits_rev (fuel : nat) (n : Z) : list ascii :=
  match fuel with
  | O => [digit (n mod 10)]
  | S f =>
      if (n <? 10)%Z then [digit n]
      else digit (n mod 10) :: digits_rev f (n / 10)
  end.

Definition digits_of (n : Z) : list ascii :=
  rev (digits_rev (Z.to_nat (Z.log2 n)) n).

Definition toString (n : Z) : string :=
  if (n <? 0)%Z then String "-" (string_of_list_ascii (digits_of (- n)))
  else string_of_list_ascii (digits_of n).

(** [String(v)], with [Array.prototype.toString] joining on a comma. *)
Fixpoint String_of (v : jsval) : string :=
  match v with
  | JUndefined => "undefined"
  | JBool true => "true"
  | JBool false => "false"
  | JNum n => toString n
  | JStr s => s
  | JArr l =>
      String.concat ","
        (map (fun x => match x with
                       | JUndefined => EmptyString
                       | _ => String_of x
                       end) l)
  end.

(** [Number(s)] on the plain decimal integer numerals; [None] is [NaN].
    Other numerals ([1e3], [0x1F], [1.5], padded with blanks) are outside
    the integer model and are read as [NaN]. *)
Definition digit_val (c : ascii) : option Z :=
  let n := nat_of_ascii c in
  if ((48 <=? n) && (n <=? 57))%nat then Some (Z.of_nat (n - 48)) else None.

Fixpoint parse_digits (acc : Z) (s : string) : option Z :=
  match s with
  | EmptyString => Some acc
  | String c r =>
      match digit_val c with
      | Some d => parse_digits (10 * acc + d) r
      | None => None
      end
  end.

Definition parse_int (s : string) : option Z :=
  match s with
  | EmptyString => None
  | String "-" r =>
      match r with
      | EmptyString => None
      | _ => option_map Z.opp (parse_digits 0 r)
      end
  | _ => parse_digits 0 s
  end.

End JS.
Export JS.

(* ================================================================= *)
(** ** The schema layer: casts, documents, collections *)

Module Mongoose.

Definition ObjectId : Type := N.
Bind Scope N_scope with ObjectId.

(** What an [await] can reject with. *)
Inductive error : Type :=
| ValidationError (model : string)
| CastError (kind path : string)
| DuplicateKeyError (index : string)
| IllegalArguments
| SyntaxError (pattern : string).

(** The outcome of casting a supplied value to a schema type: the path is
    left unset, holds a value, or the value cannot be cast. *)
Inductive cast (A : Type) : Type :=
| Absent
| Value (a : A)
| Invalid.
Arguments Absent {A}.
Arguments Value {A} a.
Arguments Invalid {A}.

(** [SchemaString]: anything with a [toString] of its own except arrays. *)
Definition castString (v : jsval) : cast string :=
  match v with
  | JUndefined => Absent
  | JBool _ | JNum _ | JStr _ => Value (String_of v)
  | JArr _ => Invalid
  end.

(** [SchemaNumber]: the empty string is [null]; strings and booleans go
    through [Number]; arrays never cast. *)
Definition castNumber (v : jsval) : cast Z :=
  match v with
  | JUndefined => Absent
  | JBool b => Value (if b then 1 else 0)%Z
  | JNum n => Value n
  | JStr s =>
      if (s =? EmptyString)%string then Absent
      else match parse_int s with
           | Some n => Value n
           | None => Invalid
           end
  | JArr _ => Invalid
  end.

(** [SchemaDate]: a number is a time value (valid up to 8.64e15 ms either
    side of the epoch); booleans never cast; strings and arrays go through
    the platform's [Date] constructor, [Date_of]. *)
Definition castDate (Date_of : jsval -> option Z) (v : jsval) : cast Z :=
  match v with
  | JUndefined => Absent
  | JBool _ => Invalid
  | JNum n =>
      if (Z.abs n <=? 8640000000000000)%Z then Value n else Invalid
  | JStr s =>
      if (s =? EmptyString)%string then Absent
      else match Date_of v with
           | Some d => Value d
           | None => Invalid
           end
  | JArr _ =>
      match Date_of v with
      | Some d => Value d
      | None => Invalid
      end
  end.

(** An ObjectId in its 24 hexadecimal character form.  (The raw 12 byte
    string form that some driver versions also take is not modelled.) *)
Definition hex_val (c : ascii) : option N :=
  let n := N_of_ascii c in
  if ((48 <=? n) && (n <=? 57))%N then Some (n - 48)%N
  else if ((97 <=? n) && (n <=? 102))%N then Some (n - 87)%N
  else if ((65 <=? n) && (n <=? 70))%N then Some (n - 55)%N
  else None.

Fixpoint parse_hex (acc : N) (s : string) : option N :=
  match s with
  | EmptyString => Some acc
  | String c r =>
      match hex_val c with
      | Some d => parse_hex (16 * acc + d)%N r
      | None => None
      end
  end.

Definition ObjectId_of_string (s : string) : option ObjectId :=
  if (String.length s =? 24)%nat then parse_hex 0%N s else None.

(** [SchemaObjectId]: the [toString] of the value must be an ObjectId; that
    of a boolean or of a number never is. *)
Definition castObjectId (v : jsval) : cast ObjectId :=
  match v with
  | JUndefined => Absent
  | JBool _ | JNum _ => Invalid
  | JStr _ | JArr _ =>
      match ObjectId_of_string (String_of v) with
      | Some i => Value i
      | None => Invalid
      end
  end.

(** [[String]]: a value that is not an array is cast as the one-element
    array; each element is cast as a string.  (An [undefined] element
    cannot come out of a JSON body; it is refused here.) *)
Fixpoint castStrings (l : list jsval) : cast (list string) :=
  match l with
  | [] => Value []
  | v :: r =>
      match castString v, castStrings r with
      | Value s, Value ss => Value (s :: ss)
      | _, _ => Invalid
      end
  end.

Definition castStringArray (v : jsval) : cast (list string) :=
  match v with
  | JUndefined => Absent
  | JArr l => castStrings l
  | _ => castStrings [v]
  end.

(** *** Documents, after the schemas *)

Module User.
Record t : Type := mk {
  _id : ObjectId;
  fullName : string;
  email : string;
  phone : string;
  gender : string;
  password : string;
  role : string;
  createdAt : Z
}.
End User.

Module Provider.
Record t : Type := mk {
  _id : ObjectId;
  userId : ObjectId;
  services : list string;
  experience : option Z;
  location : option string;
  availability : option string;
  rating : Z;
  totalReviews : Z;
  verified : bool;
  createdAt : Z
}.
End Provider.

Module Booking.
Record t : Type := mk {
  _id : ObjectId;
  bookingId : string;
  customerId : ObjectId;
  providerId : ObjectId;
  service : string;
  date : Z;
  time : string;
  location : string;
  amount : Z;
  status : string;
  createdAt : Z
}.
End Booking.

Record Store : Type := mkStore {
  Users : list User.t;
  Providers : list Provider.t;
  Bookings : list Booking.t
}.

(** The driver gives every new document an [_id] no stored document has. *)
Definition all_ids (st : Store) : list ObjectId :=
  map User._id (Users st) ++ map Provider._id (Providers st)
  ++ map Booking._id (Bookings st).

Definition fresh_id (st : Store) : ObjectId :=
  N.succ (fold_right N.max 0%N (all_ids st)).

(** *** Operations on the store

    An operation reads or writes the store and may reject. *)

Inductive outcome (A : Type) : Type :=
| Ok (a : A)
| Throw (e : error).
Arguments Ok {A} a.
Arguments Throw {A} e.

Definition Op (A : Type) : Type := Store -> outcome A * Store.

Definition ret {A : Type} (a : A) : Op A := fun st => (Ok a, st).

Definition throw {A : Type} (e : error) : Op A := fun st => (Throw e, st).

Definition bind {A B : Type} (m : Op A) (k : A -> Op B) : Op B :=
  fun st =>
    match m st with
    | (Ok a, st') => k a st'
    | (Throw e, st') => (Throw e, st')
    end.

Definition gets {A : Type} (f : Store -> A) : Op A :=
  fun st => (Ok (f st), st).

(** [required: true]; on a [String] path the empty string does not count. *)
Definition required_string (s : string) : bool := negb (s =? EmptyString)%string.

Definition in_enum (s : string) (values : list string) : bool :=
  existsb (String.eqb s) values.

(** Replace the first document that satisfies [p]. *)
Fixpoint update_first {A : Type} (p : A -> bool) (f : A -> A) (l : list A)
  : list A :=
  match l with
  | [] => []
  | x :: r => if p x then f x :: r else x :: update_first p f r
  end.

(** [.sort({ key: -1 })]: descending on [key], stable. *)
Fixpoint insert_desc {A : Type} (key : A -> Z) (x : A) (l : list A) : list A :=
  match l with
  | [] => [x]
  | y :: r =>
      if (key y <=? key x)%Z then x :: y :: r
      else y :: insert_desc key x r
  end.

Fixpoint sort_desc {A : Type} (key : A -> Z) (l : list A) : list A :=
  match l with
  | [] => []
  | x :: r => insert_desc key x (sort_desc key r)
  end.

(** **** Users *)

Definition set_role (r : string) (u : User.t) : User.t :=
  User.mk (User._id u) (User.fullName u) (User.email u) (User.phone u)
          (User.gender u) (User.password u) r (User.createdAt u).

(** [User.findOne({ email })].  The filter value is cast like the path,
    [lowercase] setter included.  (Both callers have tested the value for
    truthiness, so it is never [undefined] here.) *)
Definition User_findOne_email (email : jsval) : Op (option User.t) :=
  match castString email with
  | Value e =>
      gets (fun st =>
              find (fun u => (User.email u =? toLowerCase e)%string) (Users st))
  | Absent => ret None
  | Invalid => throw (CastError "string" "email")
  end.

Definition User_findById (id : ObjectId) (st : Store) : option User.t :=
  find (fun u => (User._id u =? id)%N) (Users st).

(** [new User({ fullName, email, phone, gender, password })] and the
    validation [save] runs on it.  [role] and [createdAt] take their
    defaults. *)
Definition User_validate (id : ObjectId) (fullName email phone gender : jsval)
  (password : string) (created : Z) : option User.t :=
  match castString fullName, castString email, castString phone,
        castString gender with
  | Value f, Value e, Value p, Value g =>
      if required_string f && required_string e && required_string p
         && required_string g && in_enum g ["male"; "female"; "other"]
         && required_string password
      then Some (User.mk id f (toLowerCase e) p g password "customer" created)
      else None
  | _, _, _, _ => None
  end.

(** [newUser.save()]: validation, then the insert, which the unique index
    on [email] may refuse. *)
Definition User_save (fullName email phone gender : jsval) (password : string)
  (created : Z) : Op User.t :=
  fun st =>
    match User_validate (fresh_id st) fullName email phone gender password
                        created with
    | None => (Throw (ValidationError "User"), st)
    | Some u =>
        if existsb (fun v => (User.email v =? User.email u)%string) (Users st)
        then (Throw (DuplicateKeyError "email"), st)
        else (Ok u, mkStore (Users st ++ [u]) (Providers st) (Bookings st))
    end.

(** [User.findByIdAndUpdate(id, { role })]: no validators run; the
    document before the update is the result. *)
Definition User_findByIdAndUpdate_role (id : ObjectId) (r : string)
  : Op (option User.t) :=
  fun st =>
    (Ok (User_findById id st),
     mkStore (update_first (fun u => (User._id u =? id)%N) (set_role r)
                           (Users st))
             (Providers st) (Bookings st)).

(** **** Providers *)

Definition Provider_findOne_userId (id : ObjectId) (st : Store)
  : option Provider.t :=
  find (fun p => (Provider.userId p =? id)%N) (Providers st).

Definition Provider_findById (id : ObjectId) (st : Store) : option Provider.t :=
  find (fun p => (Provider._id p =? id)%N) (Providers st).

Definition opt_of_cast {A : Type} (c : cast A) : option A :=
  match c with
  | Value a => Some a
  | _ => None
  end.

Definition is_invalid {A : Type} (c : cast A) : bool :=
  match c with
  | Invalid => true
  | _ => false
  end.

(** [new Provider({ userId, services, experience, location, availability })]
    and its validation: only [userId] is required, every path must cast. *)
Definition Provider_validate (id userId : ObjectId)
  (services experience location availability : jsval) (created : Z)
  : option Provider.t :=
  let sv := castStringArray services in
  let ex := castNumber experience in
  let lo := castString location in
  let av := castString availability in
  if is_invalid sv || is_invalid ex || is_invalid lo || is_invalid av
  then None
  else Some (Provider.mk id userId
               (match sv with Value l => l | _ => [] end)
               (opt_of_cast ex) (opt_of_cast lo) (opt_of_cast av)
               0%Z 0%Z false created).

Definition Provider_save (userId : ObjectId)
  (services experience location availability : jsval) (created : Z)
  : Op Provider.t :=
  fun st =>
    match Provider_validate (fresh_id st) userId services experience location
                            availability created with
    | None => (Throw (ValidationError "Provider"), st)
    | Some p => (Ok p, mkStore (Users st) (Providers st ++ [p]) (Bookings st))
    end.

(** **** Bookings *)

Definition set_status (s : string) (b : Booking.t) : Booking.t :=
  Booking.mk (Booking._id b) (Booking.bookingId b) (Booking.customerId b)
             (Booking.providerId b) (Booking.service b) (Booking.date b)
             (Booking.time b) (Booking.location b) (Booking.amount b) s
             (Booking.createdAt b).

(** A filter on bookings: the keys a handler has put in [query]. *)
Record BookingQuery : Type := mkBookingQuery {
  q_providerId : option ObjectId;
  q_customerId : option ObjectId;
  q_status : option string
}.

Definition holds {A : Type} (eqb : A -> A -> bool) (c : option A) (a : A)
  : bool :=
  match c with
  | None => true
  | Some x => eqb a x
  end.

Definition Booking_matches (q : BookingQuery) (b : Booking.t) : bool :=
  holds N.eqb (q_providerId q) (Booking.providerId b)
  && holds N.eqb (q_customerId q) (Booking.customerId b)
  && holds String.eqb (q_status q) (Booking.status b).

Definition Booking_find (q : BookingQuery) (st : Store) : list Booking.t :=
  filter (Booking_matches q) (Bookings st).

Definition Booking_countDocuments (q : BookingQuery) (st : Store) : Z :=
  Z.of_nat (List.length (Booking_find q st)).

(** [aggregate([{ $match }, { $group: { _id: null, total: { $sum:
    '$amount' } } }])]: one group when a document matches, none otherwise. *)
Definition Booking_aggregate_total (q : BookingQuery) (st : Store) : list Z :=
  match Booking_find q st with
  | [] => []
  | l => [fold_right Z.add 0%Z (map Booking.amount l)]
  end.

(** [new Booking({ ... })] and its validation: every path is required. *)
Definition Booking_validate (Date_of : jsval -> option Z) (id : ObjectId)
  (bookingId : string) (customerId : ObjectId)
  (providerId service date time location amount : jsval) (status : string)
  (created : Z) : option Booking.t :=
  match castObjectId providerId, castString service, castDate Date_of date,
        castString time, castString location, castNumber amount with
  | Value p, Value s, Value d, Value t, Value l, Value a =>
      if required_string bookingId && required_string s && required_string t
         && required_string l
         && in_enum status ["pending"; "confirmed"; "completed"; "cancelled"]
      then Some (Booking.mk id bookingId customerId p s d t l a status created)
      else None
  | _, _, _, _, _, _ => None
  end.

(** [booking.save()]: validation, then the insert, which the unique index
    on [bookingId] may refuse. *)
Definition Booking_save (Date_of : jsval -> option Z) (bookingId : string)
  (customerId : ObjectId) (providerId service date time location amount : jsval)
  (status : string) (created : Z) : Op Booking.t :=
  fun st =>
    match Booking_validate Date_of (fresh_id st) bookingId customerId
            providerId service date time location amount status created with
    | None => (Throw (ValidationError "Booking"), st)
    | Some b =>
        if existsb (fun c => (Booking.bookingId c =? bookingId)%string)
                   (Bookings st)
        then (Throw (DuplicateKeyError "bookingId"), st)
        else (Ok b, mkStore (Users st) (Providers st) (Bookings st ++ [b]))
    end.

(** [Booking.findByIdAndUpdate(id, { status }, { new: true })].  The
    identifier and the new value are cast first; validators do not run on an
    update; an [undefined] value leaves an empty update. *)
Definition Booking_findByIdAndUpdate_status (id : string) (status : jsval)
  : Op (option Booking.t) :=
  match ObjectId_of_string id with
  | None => throw (CastError "ObjectId" "_id")
  | Some i =>
      let same := fun b => (Booking._id b =? i)%N in
      match castString status with
      | Invalid => throw (CastError "string" "status")
      | Absent => gets (fun st => find same (Bookings st))
      | Value s =>
          fun st =>
            (Ok (option_map (set_status s) (find same (Bookings st))),
             mkStore (Users st) (Providers st)
                     (update_first same (set_status s) (Bookings st)))
      end
  end.

End Mongoose.
Export Mongoose.

Declare Scope op_scope.
Delimit Scope op_scope with op.
Notation "x <- m ;; k" := (bind m (fun x => k))
  (at level 61, m at next level, right associativity) : op_scope.

(* ================================================================= *)
(** ** Regular expressions: the fragment the provider filter is read in

    [new RegExp(location, 'i')] reads the filter as a pattern.  Patterns
    made of ordinary characters and of the dot have their meaning given
    here ([compile]); every other pattern has the meaning the engine of the
    platform gives it, a parameter: the search it makes, or nothing when the
    pattern is not well formed and the constructor throws. *)

Module RegExp.

Inductive atom : Type :=
| Lit (c : ascii)
| AnyChar.

Definition is_special (c : ascii) : bool :=
  existsb (Ascii.eqb c)
    (list_ascii_of_string "\^$.*+?()[]{}|").

Fixpoint compile (pattern : string) : option (list atom) :=
  match pattern with
  | EmptyString => Some []
  | String c r =>
      if (c =? ".")%char then option_map (cons AnyChar) (compile r)
      else if is_special c then None
      else option_map (cons (Lit c)) (compile r)
  end.

(** With the [i] flag a letter matches both its cases; the dot matches
    every character but a line feed. *)
Definition atom_matches (a : atom) (c : ascii) : bool :=
  match a with
  | Lit x => (lower_ascii x =? lower_ascii c)%char
  | AnyChar => negb (c =? ascii_of_nat 10)%char
  end.

Fixpoint match_here (re : list atom) (s : string) : bool :=
  match re, s with
  | [], _ => true
  | _ :: _, EmptyString => false
  | a :: re', String c r => atom_matches a c && match_here re' r
  end.

(** An unanchored search: the pattern may match at any offset. *)
Fixpoint test (re : list atom) (s : string) : bool :=
  match_here re s ||
  match s with
  | EmptyString => false
  | String _ r => test re r
  end.

(** What the platform makes of the patterns [compile] leaves: the search
    of the pattern, or [None] for a SyntaxError. *)
Definition engine : Type := string -> option (string -> bool).

(** [new RegExp(pattern, 'i')], as the search it stands for. *)
Definition new_RegExp_i (rest : engine) (pattern : string)
  : option (string -> bool) :=
  match compile pattern with
  | Some re => Some (test re)
  | None => rest pattern
  end.

End RegExp.

(* ================================================================= *)
(** ** Requests and responses *)

(** What [verifyToken] attaches to the request of an authenticated call. *)
Record Auth : Type := mkAuth {
  userId : ObjectId;
  userRole : string
}.

(** The platform functions the handlers call: [bcrypt.hash(_, 10)],
    [bcrypt.compare], [jwt.sign] and [jwt.verify] with the secret of the
    server ([id] and [role] are the claims of the token), and the [Date]
    constructor.  A token also carries the time it was signed at, which the
    model leaves out: [jwt_sign] stands for the signing of one call, and no
    statement compares the tokens of two calls. *)
Record Platform : Type := mkPlatform {
  bcrypt_hash : string -> string;
  bcrypt_compare : string -> string -> bool;
  jwt_sign : ObjectId -> string -> string;
  jwt_verify : string -> option Auth;
  Date_of : jsval -> option Z
}.

(** [{ id, fullName, email, role }] *)
Module UserInfo.
Record t : Type := mk {
  id : ObjectId;
  fullName : string;
  email : string;
  role : string
}.
End UserInfo.

(** A user populated with ['fullName email phone']. *)
Module UserContact.
Record t : Type := mk {
  _id : ObjectId;
  fullName : string;
  email : string;
  phone : string
}.
End UserContact.

(** A booking with [customerId] and [providerId] populated; a reference
    that resolves to no document is [None]. *)
Module PopulatedBooking.
Record t : Type := mk {
  doc : Booking.t;
  customerId : option UserContact.t;
  providerId : option Provider.t
}.
End PopulatedBooking.

Module PopulatedProvider.
Record t : Type := mk {
  doc : Provider.t;
  userId : option UserContact.t
}.
End PopulatedProvider.

Module ProviderStats.
Record t : Type := mk {
  totalBookings : Z;
  pendingBookings : Z;
  completedBookings : Z;
  totalRevenue : Z;
  averageRating : Z
}.
End ProviderStats.

Module CustomerStats.
Record t : Type := mk {
  totalBookings : Z;
  pendingBookings : Z
}.
End CustomerStats.

Inductive body : Type :=
| Message (message : string)
| Received (message : string) (fullName email phone gender : jsval)
           (password : option string)
| Failure (message : string) (error : Mongoose.error)
| Session (message token : string) (user : UserInfo.t)
| BookingResult (message : string) (booking : Booking.t)
| BookingList (bookings : list PopulatedBooking.t)
| ProviderResult (message : string) (provider : Provider.t)
| ProviderList (providers : list PopulatedProvider.t)
| ProviderStatsResult (stats : ProviderStats.t)
| CustomerStatsResult (stats : CustomerStats.t).

Record response : Type := mkResponse {
  status : nat;
  json : body
}.

(** [res.json(b)] answers 200. *)
Definition res_json (b : body) : response := mkResponse 200 b.

(** The [catch] block every handler ends with. *)
Definition server_error (e : error) : response :=
  mkResponse 500 (Failure "Server error" e).

Definition try_catch (body : Op response) : Store -> response * Store :=
  fun st =>
    match body st with
    | (Ok r, st') => (r, st')
    | (Throw e, st') => (server_error e, st')
    end.

Definition contact_of (u : User.t) : UserContact.t :=
  UserContact.mk (User._id u) (User.fullName u) (User.email u) (User.phone u).

Definition info_of (u : User.t) : UserInfo.t :=
  UserInfo.mk (User._id u) (User.fullName u) (User.email u) (User.role u).

Definition populate_booking (st : Store) (b : Booking.t) : PopulatedBooking.t :=
  PopulatedBooking.mk b
    (option_map contact_of (User_findById (Booking.customerId b) st))
    (Provider_findById (Booking.providerId b) st).

Definition populate_provider (st : Store) (p : Provider.t)
  : PopulatedProvider.t :=
  PopulatedProvider.mk p
    (option_map contact_of (User_findById (Provider.userId p) st)).

Definition no_filter : BookingQuery := mkBookingQuery None None None.

(* ================================================================= *)
(** ** The route handlers *)

Local Open Scope op_scope.

Section Handlers.

Variable P : Platform.

(** [verifyToken]: the token is the second word of the authorization
    header; the call goes on to the handler, [next], when the token
    verifies. *)
Definition verifyToken (authorization : option string)
  (next : Auth -> Store -> response * Store) : Store -> response * Store :=
  fun st =>
    let token :=
      match authorization with
      | Some h => nth_error (split " " h) 1
      | None => None
      end in
    match token with
    | Some t =>
        if truthy (JStr t)
        then match jwt_verify P t with
             | Some decoded => next decoded st
             | None => (mkResponse 401 (Message "Invalid token"), st)
             end
        else (mkResponse 401 (Message "No token provided"), st)
    | None => (mkResponse 401 (Message "No token provided"), st)
    end.

(** [bcrypt.hash(password, 10)] and [bcrypt.compare(password, hash)] reject
    when the password is not a string. *)
Definition hash_password (password : jsval) : Op string :=
  match password with
  | JStr s => ret (bcrypt_hash P s)
  | _ => throw IllegalArguments
  end.

Definition compare_password (password : jsval) (hash : string) : Op bool :=
  match password with
  | JStr s => ret (bcrypt_compare P s hash)
  | _ => throw IllegalArguments
  end.

(** [POST /api/auth/signup] *)
Definition post_auth_signup (fullName email phone gender password : jsval)
  (created : Z) : Store -> response * Store :=
  try_catch
    (if negb (truthy fullName) || negb (truthy email) || negb (truthy phone)
        || negb (truthy gender) || negb (truthy password)
     then ret (mkResponse 400
                 (Received "All fields are required" fullName email phone
                    gender (if truthy password then Some "***" else None)))
     else if length_lt password 8
     then ret (mkResponse 400
                 (Message "Password must be at least 8 characters"))
     else
       existingUser <- User_findOne_email email ;;
       match existingUser with
       | Some _ =>
           ret (mkResponse 400 (Message "User already exists with this email"))
       | None =>
           hashedPassword <- hash_password password ;;
           newUser <- User_save fullName email phone gender hashedPassword
                                created ;;
           let token := jwt_sign P (User._id newUser) (User.role newUser) in
           ret (mkResponse 201
                  (Session "User registered successfully" token
                           (info_of newUser)))
       end).

(** [POST /api/auth/login] *)
Definition post_auth_login (email password : jsval)
  : Store -> response * Store :=
  try_catch
    (if negb (truthy email) || negb (truthy password)
     then ret (mkResponse 400 (Message "Email and password are required"))
     else
       user <- User_findOne_email email ;;
       match user with
       | None => ret (mkResponse 401 (Message "Invalid credentials"))
       | Some u =>
           isPasswordValid <- compare_password password (User.password u) ;;
           if negb isPasswordValid
           then ret (mkResponse 401 (Message "Invalid credentials"))
           else
             let token := jwt_sign P (User._id u) (User.role u) in
             ret (res_json (Session "Login successful" token (info_of u)))
       end).

(** [POST /api/bookings]; [now] is what [Date.now()] returns, [created] the
    [createdAt] default taken when the document is built. *)
Definition post_bookings (req : Auth)
  (providerId service date time location amount : jsval) (now created : Z)
  : Store -> response * Store :=
  try_catch
    (let bookingId := ("BK" ++ slice_last 6 (toString now))%string in
     booking <- Booking_save (Date_of P) bookingId (userId req) providerId
                             service date time location amount "pending"
                             created ;;
     ret (mkResponse 201 (BookingResult "Booking created successfully" booking))).

(** [GET /api/bookings] *)
Definition get_bookings (req : Auth) : Store -> response * Store :=
  try_catch
    (query <-
       (if (userRole req =? "provider")%string
        then
          provider <- gets (Provider_findOne_userId (userId req)) ;;
          match provider with
          | Some p =>
              ret (mkBookingQuery (Some (Provider._id p)) None None)
          | None => ret no_filter
          end
        else ret no_filter) ;;
     bookings <-
       gets (fun st =>
               map (populate_booking st)
                   (sort_desc Booking.createdAt (Booking_find query st))) ;;
     ret (res_json (BookingList bookings))).

(** [PATCH /api/bookings/:id/status] *)
Definition patch_bookings_status (req : Auth) (id : string) (status : jsval)
  : Store -> response * Store :=
  try_catch
    (booking <- Booking_findByIdAndUpdate_status id status ;;
     match booking with
     | None => ret (mkResponse 404 (Message "Booking not found"))
     | Some b => ret (res_json (BookingResult "Booking status updated" b))
     end).

(** [POST /api/providers/register] *)
Definition post_providers_register (req : Auth)
  (services experience location availability : jsval) (created : Z)
  : Store -> response * Store :=
  try_catch
    (existingProvider <- gets (Provider_findOne_userId (userId req)) ;;
     match existingProvider with
     | Some _ =>
         ret (mkResponse 400 (Message "Already registered as provider"))
     | None =>
         _ <- User_findByIdAndUpdate_role (userId req) "provider" ;;
         provider <- Provider_save (userId req) services experience location
                                   availability created ;;
         ret (mkResponse 201
                (ProviderResult "Provider registration successful" provider))
     end).

(** [GET /api/dashboard/stats] *)
Definition get_dashboard_stats (req : Auth) : Store -> response * Store :=
  try_catch
    (if (userRole req =? "provider")%string
     then
       provider <- gets (Provider_findOne_userId (userId req)) ;;
       match provider with
       | None => ret (mkResponse 404 (Message "Provider profile not found"))
       | Some p =>
           let own status :=
             mkBookingQuery (Some (Provider._id p)) None status in
           totalBookings <- gets (Booking_countDocuments (own None)) ;;
           pendingBookings <-
             gets (Booking_countDocuments (own (Some "pending"))) ;;
           completedBookings <-
             gets (Booking_countDocuments (own (Some "completed"))) ;;
           revenueData <-
             gets (Booking_aggregate_total (own (Some "completed"))) ;;
           ret (res_json
                  (ProviderStatsResult
                     (ProviderStats.mk totalBookings pendingBookings
                        completedBookings
                        (match revenueData with
                         | total :: _ => if (total =? 0)%Z then 0%Z else total
                         | [] => 0%Z
                         end)
                        (Provider.rating p))))
       end
     else
       let mine status := mkBookingQuery None (Some (userId req)) status in
       totalBookings <- gets (Booking_countDocuments (mine None)) ;;
       pendingBookings <-
         gets (Booking_countDocuments (mine (Some "pending"))) ;;
       ret (res_json
              (CustomerStatsResult
                 (CustomerStats.mk totalBookings pendingBookings)))).

End Handlers.

(** [GET /api/providers], open to every caller.  The query parameters are
    plain strings when given.  The filter on [services] holds of a provider
    whose array has the string as an element; the filter on [location] is
    the search of a pattern. *)
Record ProviderQuery : Type := mkProviderQuery {
  q_verified : option bool;
  q_services : option string;
  q_location : option (string -> bool)
}.

Definition Provider_matches (q : ProviderQuery) (p : Provider.t) : bool :=
  holds Bool.eqb (q_verified q) (Provider.verified p)
  && match q_services q with
     | None => true
     | Some s => existsb (String.eqb s) (Provider.services p)
     end
  && match q_location q with
     | None => true
     | Some search =>
         match Provider.location p with
         | Some l => search l
         | None => false
         end
     end.

Definition Provider_find (q : ProviderQuery) (st : Store) : list Provider.t :=
  filter (Provider_matches q) (Providers st).

Definition given (param : option string) : option string :=
  match param with
  | Some s => if truthy (JStr s) then Some s else None
  | None => None
  end.

Definition get_providers (rest : RegExp.engine)
  (service location : option string) : Store -> response * Store :=
  try_catch
    (let query := mkProviderQuery (Some true) None None in
     let query :=
       match given service with
       | Some s => mkProviderQuery (q_verified query) (Some s) (q_location query)
       | None => query
       end in
     query <-
       match given location with
       | Some l =>
           match RegExp.new_RegExp_i rest l with
           | Some search =>
               ret (mkProviderQuery (q_verified query) (q_services query)
                                    (Some search))
           | None => throw (SyntaxError l)
           end
       | None => ret query
       end ;;
     providers <-
       gets (fun st => map (populate_provider st) (Provider_find query st)) ;;
     ret (res_json (ProviderList providers))).

(* ================================================================= *)
(** ** The other routes

    The profile, the caller's own bookings, one provider, and the contact
    form.  Their answers have bodies of their own; the messages and the
    [catch] body are the [body] ones. *)

(** A user document without its password ([.select('-password')]). *)
Module Profile.
Record t : Type := mk {
  _id : ObjectId;
  fullName : string;
  email : string;
  phone : string;
  gender : string;
  role : string;
  createdAt : Z
}.
End Profile.

(** A booking with [providerId] populated. *)
Module MyBooking.
Record t : Type := mk {
  doc : Booking.t;
  providerId : option Provider.t
}.
End MyBooking.

Module Contact.
Record t : Type := mk {
  _id : ObjectId;
  name : string;
  email : string;
  phone : option string;
  subject : string;
  message : string;
  status : string;
  createdAt : Z
}.
End Contact.

Inductive more_body : Type :=
| Basic (b : body)
| ProfileResult (user : Profile.t)
| MyBookingList (bookings : list MyBooking.t)
| ProviderProfile (provider : PopulatedProvider.t)
| ContactResult (message : string) (contact : Contact.t)
| ContactList (contacts : list Contact.t).

Record reply : Type := mkReply {
  code : nat;
  content : more_body
}.

Definition reply_json (b : more_body) : reply := mkReply 200 b.

Definition reply_error (e : error) : reply :=
  mkReply 500 (Basic (Failure "Server error" e)).

Definition try_reply (body : Op reply) : Store -> reply * Store :=
  fun st =>
    match body st with
    | (Ok r, st') => (r, st')
    | (Throw e, st') => (reply_error e, st')
    end.

Definition profile_of (u : User.t) : Profile.t :=
  Profile.mk (User._id u) (User.fullName u) (User.email u) (User.phone u)
             (User.gender u) (User.role u) (User.createdAt u).

Definition populate_my_booking (st : Store) (b : Booking.t) : MyBooking.t :=
  MyBooking.mk b (Provider_findById (Booking.providerId b) st).

(** [GET /api/auth/me] *)
Definition get_auth_me (req : Auth) : Store -> reply * Store :=
  try_reply
    (user <- gets (User_findById (userId req)) ;;
     match user with
     | None => ret (mkReply 404 (Basic (Message "User not found")))
     | Some u => ret (reply_json (ProfileResult (profile_of u)))
     end).

(** [GET /api/bookings/my-bookings] *)
Definition get_my_bookings (req : Auth) : Store -> reply * Store :=
  try_reply
    (bookings <-
       gets (fun st =>
               map (populate_my_booking st)
                   (sort_desc Booking.createdAt
                      (Booking_find
                         (mkBookingQuery None (Some (userId req)) None) st))) ;;
     ret (reply_json (MyBookingList bookings))).

(** [Provider.findById(id).populate('userId', 'fullName email phone')]:
    the identifier is cast first. *)
Definition Provider_findById_populated (id : string)
  : Op (option PopulatedProvider.t) :=
  match ObjectId_of_string id with
  | None => throw (CastError "ObjectId" "_id")
  | Some i =>
      gets (fun st => option_map (populate_provider st) (Provider_findById i st))
  end.

(** [GET /api/providers/:id], open to every caller. *)
Definition get_provider (id : string) : Store -> reply * Store :=
  try_reply
    (provider <- Provider_findById_populated id ;;
     match provider with
     | None => ret (mkReply 404 (Basic (Message "Provider not found")))
     | Some p => ret (reply_json (ProviderProfile p))
     end).

(** *** The contact form

    The two contact routes touch the [Contact] collection only, which is
    their state. *)

Definition fresh_contact_id (contacts : list Contact.t) : ObjectId :=
  N.succ (fold_right N.max 0%N (map Contact._id contacts)).

(** [new Contact({ name, email, phone, subject, message })] and its
    validation: [phone] is the one optional path; [status] and [createdAt]
    take their defaults. *)
Definition Contact_validate (id : ObjectId)
  (name email phone subject message : jsval) (created : Z)
  : option Contact.t :=
  match castString name, castString email, castString subject,
        castString message with
  | Value n, Value e, Value s, Value m =>
      if required_string n && required_string e && required_string s
         && required_string m && negb (is_invalid (castString phone))
      then Some (Contact.mk id n e (opt_of_cast (castString phone)) s m "new"
                            created)
      else None
  | _, _, _, _ => None
  end.

(** [POST /api/contact], open to every caller. *)
Definition post_contact (name email phone subject message : jsval)
  (created : Z) (contacts : list Contact.t) : reply * list Contact.t :=
  if negb (truthy name) || negb (truthy email) || negb (truthy subject)
     || negb (truthy message)
  then (mkReply 400 (Basic (Message "Required fields missing")), contacts)
  else
    match Contact_validate (fresh_contact_id contacts) name email phone
                           subject message created with
    | None => (reply_error (ValidationError "Contact"), contacts)
    | Some contact =>
        (mkReply 201
           (ContactResult
              "Thank you for contacting us! We will get back to you soon."
              contact),
         contacts ++ [contact])
    end.

(** [GET /api/contact] *)
Definition get_contact (req : Auth) (contacts : list Contact.t)
  : reply * list Contact.t :=
  (reply_json (ContactList (sort_desc Contact.createdAt contacts)), contacts).

(* ================================================================= *)
(** ** Words of the specification *)

(** Most recent first: no booking is followed by a more recent one. *)
Definition most_recent_first (l : list Booking.t) : Prop :=
  StronglySorted
    (fun a b => (Booking.createdAt b <= Booking.createdAt a)%Z) l.

(** The bookings a response lists. *)
Definition listed (r : response) : list Booking.t :=
  match json r with
  | BookingList l => map PopulatedBooking.doc l
  | _ => []
  end.

(** [f] occurs in [s] when case is ignored. *)
Definition contains_ci (f s : string) : bool :=
  includes (toLowerCase f) (toLowerCase s).

(** Every stored email is in lower case, as the [lowercase] setter of the
    schema leaves it. *)
Definition emails_lowercase (st : Store) : Prop :=
  forall u, In u (Users st) -> User.email u = toLowerCase (User.email u).

(** The decimal digit of weight [10^i]. *)
Definition decimal_digit (n : Z) (i : nat) : ascii :=
  digit ((n / 10 ^ Z.of_nat i) mod 10).

(** The last six decimal digits, most significant first. *)
Definition last_six_digits (n : Z) : string :=
  string_of_list_ascii (map (decimal_digit n) [5; 4; 3; 2; 1; 0]%nat).

(** Every field but [status] is the same in both bookings. *)
Definition same_but_status (b b' : Booking.t) : Prop :=
  Booking._id b' = Booking._id b
  /\ Booking.bookingId b' = Booking.bookingId b
  /\ Booking.customerId b' = Booking.customerId b
  /\ Booking.providerId b' = Booking.providerId b
  /\ Booking.service b' = Booking.service b
  /\ Booking.date b' = Booking.date b
  /\ Booking.time b' = Booking.time b
  /\ Booking.location b' = Booking.location b
  /\ Booking.amount b' = Booking.amount b
  /\ Booking.createdAt b' = Booking.createdAt b.

(** None of the four fields of a registration is refused by its cast. *)
Definition Provider_castable (services experience location availability : jsval)
  : bool :=
  negb (is_invalid (castStringArray services)
        || is_invalid (castNumber experience)
        || is_invalid (castString location)
        || is_invalid (castString availability)).

(** The providers a response lists. *)
Definition provided (r : response) : list Provider.t :=
  match json r with
  | ProviderList l => map PopulatedProvider.doc l
  | _ => []
  end.

(** A filter with no special character of the pattern language. *)
Definition plain (f : string) : bool :=
  forallb (fun c => negb (RegExp.is_special c)) (list_ascii_of_string f).

(** The bookings of a provider, those of a given status, and their revenue. *)
Definition bookings_of (p : Provider.t) (st : Store) : list Booking.t :=
  filter (fun b => (Booking.providerId b =? Provider._id p)%N) (Bookings st).

Definition with_status (s : string) (l : list Booking.t) : list Booking.t :=
  filter (fun b => (Booking.status b =? s)%string) l.

Definition revenue (l : list Booking.t) : Z :=
  fold_right Z.add 0%Z (map Booking.amount l).

Definition count (l : list Booking.t) : Z := Z.of_nat (List.length l).

(** A word: a string with no blank in it. *)
Definition no_space (s : string) : bool :=
  forallb (fun c => negb (c =? " ")%char) (list_ascii_of_string s).

(** The status and the new store of a handler's outcome. *)
Definition answered (out : response * Store) : nat := status (fst out).

(** The bookingIds of the stored bookings are pairwise distinct. *)
Definition bookingIds_distinct (st : Store) : Prop :=
  NoDup (map Booking.bookingId (Bookings st)).

(** The providers the directory may show. *)
Definition verified_providers (st : Store) : list Provider.t :=
  filter Provider.verified (Providers st).

(** The bookings of a customer. *)
Definition bookings_by (customer : ObjectId) (st : Store) : list Booking.t :=
  filter (fun b => (Booking.customerId b =? customer)%N) (Bookings st).

(** The statistics of a provider's answer, when it carries some. *)
Definition provider_stats (out : response * Store) : option ProviderStats.t :=
  match json (fst out) with
  | ProviderStatsResult s => Some s
  | _ => None
  end.

(** The bookings of the answer to my-bookings. *)
Definition my_listed (r : reply) : list Booking.t :=
  match content r with
  | MyBookingList l => map MyBooking.doc l
  | _ => []
  end.

(* ================================================================= *)
(** ** Sample data *)

Definition sample_platform : Platform :=
  mkPlatform (fun s => ("$2a$10$" ++ s)%string)
             (fun s h => (h =? "$2a$10$" ++ s)%string)
             (fun i r => ("jwt." ++ r)%string)
             (fun t => if (t =? "jwt.provider")%string
                       then Some (mkAuth 1 "provider") else None)
             (fun v => match v with
                       | JStr s => parse_int s
                       | _ => None
                       end).

Definition ann : User.t :=
  User.mk 1 "Ann" "ann@x.com" "5550100" "female" "$2a$10$password1"
          "customer" 1000.

Definition ann_provider : Provider.t :=
  Provider.mk 2 1 ["plumbing"] (Some 3%Z) (Some "Mumbai") (Some "weekdays")
              4 10 true 2000.

Definition booking_of (id : ObjectId) (bookingId : string)
  (providerId : ObjectId) (amount : Z) (status : string) (created : Z)
  : Booking.t :=
  Booking.mk id bookingId 1 providerId "plumbing" 1700000000000 "10:00"
             "Pune" amount status created.

Definition completed_500 : Booking.t :=
  booking_of 3 "BK000123" 2 500 "completed" 3000.

Definition pending_300 : Booking.t :=
  booking_of 4 "BK000456" 2 300 "pending" 4000.

Definition other_booking : Booking.t :=
  booking_of 5 "BK000789" 9 700 "completed" 5000.

Definition users_only : Store := mkStore [ann] [] [].

Definition sample_store : Store :=
  mkStore [ann] [ann_provider] [completed_500; pending_300; other_booking].

(** An engine that takes no pattern beyond those of [RegExp.compile]. *)
Definition no_engine : RegExp.engine := fun _ => None.

(** A store in which a booking exists and nobody is a provider. *)
Definition no_provider_store : Store := mkStore [ann] [] [other_booking].

(** A platform whose tokens can be read back: the identifier in unary, a
    dot, the role. *)
Fixpoint unary_token (n : nat) (r : string) : string :=
  match n with
  | O => String "." r
  | S m => String "x" (unary_token m r)
  end.

Fixpoint read_unary_token (t : string) : option Auth :=
  match t with
  | String "x" r =>
      option_map (fun a => mkAuth (N.succ (userId a)) (userRole a))
                 (read_unary_token r)
  | String "." r => Some (mkAuth 0 r)
  | _ => None
  end.

Definition token_platform : Platform :=
  mkPlatform (fun s => ("$2a$10$" ++ s)%string)
             (fun s h => (h =? "$2a$10$" ++ s)%string)
             (fun i r => unary_token (N.to_nat i) r)
             read_unary_token
             (fun _ => None).

(* ================================================================= *)
(** ** Lemmas on the store operations *)

Section SortDesc.

Context {A : Type} (key : A -> Z).

Let later_first (a b : A) : Prop := (key b <= key a)%Z.

Lemma insert_desc_perm (x : A) (l : list A) :
  Permutation (insert_desc key x l) (x :: l).
Proof.
  induction l as [|y r IH]; simpl.
  - reflexivity.
  - destruct (key y <=? key x)%Z.
    + reflexivity.
    + rewrite IH. apply perm_swap.
Qed.

Lemma sort_desc_perm (l : list A) : Permutation (sort_desc key l) l.
Proof.
  induction l as [|x r IH]; simpl.
  - reflexivity.
  - rewrite insert_desc_perm. now constructor.
Qed.

Lemma insert_desc_sorted (x : A) (l : list A) :
  StronglySorted later_first l ->
  StronglySorted later_first (insert_desc key x l).
Proof.
  induction 1 as [|y r Hr IH Hy]; simpl.
  - constructor; constructor.
  - destruct (key y <=? key x)%Z eqn:E.
    + apply Z.leb_le in E.
      constructor.
      * now constructor.
      * constructor; [exact E|].
        eapply Forall_impl; [|exact Hy].
        unfold later_first; intros; lia.
    + apply Z.leb_gt in E.
      constructor; [exact IH|].
      eapply Permutation_Forall.
      * symmetry. apply insert_desc_perm.
      * constructor; [unfold later_first; lia | exact Hy].
Qed.

Lemma sort_desc_sorted (l : list A) :
  StronglySorted later_first (sort_desc key l).
Proof.
  induction l as [|x r IH]; simpl.
  - constructor.
  - now apply insert_desc_sorted.
Qed.

End SortDesc.

Lemma find_some_first {A : Type} (p : A -> bool) (l : list A) (x : A) :
  find p l = Some x ->
  exists pre post,
    l = pre ++ x :: post /\ p x = true /\ forallb (fun y => negb (p y)) pre = true.
Proof.
  induction l as [|y r IH]; simpl; [discriminate|].
  destruct (p y) eqn:E.
  - intros [= ->]. exists [], r. auto.
  - intros H. destruct (IH H) as (pre & post & -> & Hx & Hpre).
    exists (y :: pre), post. simpl. rewrite E. auto.
Qed.

Lemma find_none_iff {A : Type} (p : A -> bool) (l : list A) :
  find p l = None <-> forall x, In x l -> p x = false.
Proof.
  split.
  - apply find_none.
  - induction l as [|y r IH]; simpl; intros H; [reflexivity|].
    rewrite (H y (or_introl eq_refl)). apply IH. intros; apply H; now right.
Qed.

Lemma update_first_split {A : Type} (p : A -> bool) (f : A -> A)
  (pre post : list A) (x : A) :
  forallb (fun y => negb (p y)) pre = true -> p x = true ->
  update_first p f (pre ++ x :: post) = pre ++ f x :: post.
Proof.
  induction pre as [|y r IH]; simpl; intros Hpre Hx.
  - now rewrite Hx.
  - apply andb_true_iff in Hpre as [Hy Hr].
    apply negb_true_iff in Hy. rewrite Hy. now rewrite IH.
Qed.

Lemma update_first_none {A : Type} (p : A -> bool) (f : A -> A) (l : list A) :
  find p l = None -> update_first p f l = l.
Proof.
  induction l as [|y r IH]; simpl; [reflexivity|].
  destruct (p y); [discriminate|]. intros H. now rewrite IH.
Qed.

(* ================================================================= *)
(** ** Authenticated calls *)

(** A call is authenticated when its header carries a token that verifies;
    the handler then runs on the identity and role of the token.  Every
    other call is answered 401 and leaves the store as it was. *)
Lemma verifyToken_outcome (P : Platform) (authorization : option string)
  (next : Auth -> Store -> response * Store) (st : Store) :
  (exists req, verifyToken P authorization next st = next req st)
  \/ (status (fst (verifyToken P authorization next st)) = 401
      /\ snd (verifyToken P authorization next st) = st).
Proof.
  unfold verifyToken.
  destruct authorization as [h|]; [|now right].
  destruct (nth_error (split " " h) 1) as [t|]; [|now right].
  destruct (truthy (JStr t)); [|now right].
  destruct (jwt_verify P t) as [req|]; [|now right].
  left. now exists req.
Qed.

Example verifyToken_bearer :
  verifyToken sample_platform (Some "Bearer jwt.provider") get_bookings
              sample_store
  = get_bookings (mkAuth 1 "provider") sample_store.
Proof. reflexivity. Qed.

(* ================================================================= *)
(** ** GET /api/bookings *)

Lemma Provider_findOne_userId_some (id : ObjectId) (st : Store) (p : Provider.t) :
  Provider_findOne_userId id st = Some p ->
  In p (Providers st) /\ Provider.userId p = id.
Proof.
  unfold Provider_findOne_userId. intros H.
  apply find_some in H as [Hin Heq]. split; [exact Hin|].
  now apply N.eqb_eq.
Qed.

Lemma Provider_findOne_userId_none (id : ObjectId) (st : Store) :
  Provider_findOne_userId id st = None <->
  forall p, In p (Providers st) -> Provider.userId p <> id.
Proof.
  unfold Provider_findOne_userId. rewrite find_none_iff.
  split; intros H p Hp.
  - apply N.eqb_neq. now apply H.
  - apply N.eqb_neq. now apply H.
Qed.

Lemma Booking_find_no_filter (st : Store) :
  Booking_find no_filter st = Bookings st.
Proof.
  unfold Booking_find, Booking_matches, no_filter. simpl.
  induction (Bookings st) as [|b r IH]; simpl; [reflexivity|].
  now rewrite IH.
Qed.

Lemma Booking_find_providerId (i : ObjectId) (st : Store) :
  Booking_find (mkBookingQuery (Some i) None None) st
  = filter (fun b => (Booking.providerId b =? i)%N) (Bookings st).
Proof.
  unfold Booking_find. apply filter_ext. intros b.
  unfold Booking_matches. simpl. now rewrite !andb_true_r.
Qed.

Lemma map_doc_populate (st : Store) (l : list Booking.t) :
  map PopulatedBooking.doc (map (populate_booking st) l) = l.
Proof.
  rewrite map_map. simpl. apply map_id.
Qed.

(** What the handler answers, whatever the caller. *)
Lemma get_bookings_run (req : Auth) (st : Store) :
  exists q,
    get_bookings req st
    = (res_json (BookingList
                   (map (populate_booking st)
                        (sort_desc Booking.createdAt (Booking_find q st)))),
       st)
    /\ q = (if (userRole req =? "provider")%string
            then match Provider_findOne_userId (userId req) st with
                 | Some p => mkBookingQuery (Some (Provider._id p)) None None
                 | None => no_filter
                 end
            else no_filter).
Proof.
  unfold get_bookings, try_catch, bind, gets, ret.
  destruct (userRole req =? "provider")%string.
  - destruct (Provider_findOne_userId (userId req) st) as [p|];
      eexists; split; reflexivity.
  - eexists; split; reflexivity.
Qed.

(** The scope of the list in each case: the answer is 200 and leaves the
    store as it is; the bookings listed are ordered most recent first; for a
    caller whose
    role is provider and for whom a Provider record is stored they are
    exactly the bookings whose [providerId] is the [_id] of the first such
    record; for a caller whose role is provider and for whom no Provider
    record is stored, and for a caller of any other role, they are exactly
    all the bookings. *)
Theorem get_bookings_scope (req : Auth) (st : Store) :
  exists l,
    get_bookings req st = (res_json (BookingList l), st)
    /\ l = map (populate_booking st) (map PopulatedBooking.doc l)
    /\ most_recent_first (map PopulatedBooking.doc l)
    /\ (forall p,
          userRole req = "provider" ->
          Provider_findOne_userId (userId req) st = Some p ->
          Permutation (map PopulatedBooking.doc l)
            (filter (fun b => (Booking.providerId b =? Provider._id p)%N)
                    (Bookings st)))
    /\ (userRole req = "provider" ->
        (forall p, In p (Providers st) -> Provider.userId p <> userId req) ->
        Permutation (map PopulatedBooking.doc l) (Bookings st))
    /\ (userRole req <> "provider" ->
        Permutation (map PopulatedBooking.doc l) (Bookings st)).
Proof.
  destruct (get_bookings_run req st) as (q & Hrun & Hq).
  eexists. split; [exact Hrun|].
  rewrite map_doc_populate.
  split; [reflexivity|].
  split; [apply sort_desc_sorted|].
  repeat split.
  - intros p Hrole Hp.
    rewrite Hrole, Hp in Hq. simpl in Hq. subst q.
    rewrite sort_desc_perm. now rewrite Booking_find_providerId.
  - intros Hrole Hnone.
    apply Provider_findOne_userId_none in Hnone.
    rewrite Hrole, Hnone in Hq. simpl in Hq. subst q.
    rewrite sort_desc_perm. now rewrite Booking_find_no_filter.
  - intros Hrole.
    apply String.eqb_neq in Hrole. rewrite Hrole in Hq. subst q.
    rewrite sort_desc_perm. now rewrite Booking_find_no_filter.
Qed.

Lemma get_bookings_scope_witness :
  exists l,
    get_bookings (mkAuth 1 "provider") sample_store
    = (res_json (BookingList l), sample_store)
    /\ Permutation (map PopulatedBooking.doc l) [completed_500; pending_300]
    /\ most_recent_first (map PopulatedBooking.doc l).
Proof.
  destruct (get_bookings_scope (mkAuth 1 "provider") sample_store)
    as (l & Hrun & _ & Hsorted & Hown & _).
  exists l. split; [exact Hrun|]. split; [|exact Hsorted].
  exact (Hown ann_provider eq_refl eq_refl).
Defined.

(** C1: the code breaks the claim at a caller whose role is provider and
    for whom no Provider record is stored (the state a failed registration
    leaves).  The handler lists every booking, one that belongs to no record
    of the caller included, where its comment says a provider is shown only
    their bookings; in the same state the statistics route answers 404. *)
Lemma get_bookings_provider_role_without_record :
  userRole (mkAuth 7 "provider") = "provider"
  /\ Provider_findOne_userId 7 no_provider_store = None
  /\ listed (fst (get_bookings (mkAuth 7 "provider") no_provider_store))
     = [other_booking]
  /\ ~ (forall b,
          In b (listed (fst (get_bookings (mkAuth 7 "provider")
                                          no_provider_store))) ->
          exists p, In p (Providers no_provider_store)
                    /\ Provider.userId p = 7%N
                    /\ Booking.providerId b = Provider._id p)
  /\ fst (get_dashboard_stats (mkAuth 7 "provider") no_provider_store)
     = mkResponse 404 (Message "Provider profile not found").
Proof.
  split; [reflexivity|]. split; [reflexivity|]. split; [reflexivity|].
  split; [|reflexivity].
  intros H. destruct (H other_booking) as (p & Hp & _).
  - simpl. now left.
  - exact Hp.
Qed.

(* ================================================================= *)
(** ** PATCH /api/bookings/:id/status *)

Lemma set_status_frame (s : string) (b : Booking.t) :
  Booking.status (set_status s b) = s /\ same_but_status b (set_status s b).
Proof. unfold same_but_status. simpl. repeat split. Qed.

(** C2, as the code has it.  An identifier that is not a well-formed
    ObjectId is answered 500 and one that is well formed and is the [_id] of
    no booking is answered 404, in both cases with the store as it was.  An
    identifier that is the [_id] of a stored booking gets 200: the status of
    the first such booking becomes the string supplied, whatever it and the
    former status are, its other fields and all other documents stay, and
    the answer does not depend on the caller. *)
Theorem patch_bookings_status_effect
  (req : Auth) (id newStatus : string) (st : Store) :
  (ObjectId_of_string id = None ->
   patch_bookings_status req id (JStr newStatus) st
   = (server_error (CastError "ObjectId" "_id"), st))
  /\ (forall i,
        ObjectId_of_string id = Some i ->
        (forall b, In b (Bookings st) -> Booking._id b <> i) ->
        patch_bookings_status req id (JStr newStatus) st
        = (mkResponse 404 (Message "Booking not found"), st))
  /\ (forall i b,
        ObjectId_of_string id = Some i ->
        find (fun c => (Booking._id c =? i)%N) (Bookings st) = Some b ->
        exists pre post b',
          Bookings st = pre ++ b :: post
          /\ Booking.status b' = newStatus
          /\ same_but_status b b'
          /\ patch_bookings_status req id (JStr newStatus) st
             = (res_json (BookingResult "Booking status updated" b'),
                mkStore (Users st) (Providers st) (pre ++ b' :: post)))
  /\ (forall req',
        patch_bookings_status req' id (JStr newStatus) st
        = patch_bookings_status req id (JStr newStatus) st).
Proof.
  unfold patch_bookings_status, try_catch, bind, Booking_findByIdAndUpdate_status.
  repeat split.
  - intros ->. reflexivity.
  - intros i -> Hno. simpl.
    assert (Hf : find (fun c => (Booking._id c =? i)%N) (Bookings st) = None).
    { apply find_none_iff. intros b Hb. apply N.eqb_neq. now apply Hno. }
    rewrite Hf, update_first_none by exact Hf. simpl.
    now destruct st.
  - intros i b -> Hb. simpl. rewrite Hb. simpl.
    destruct (find_some_first _ _ _ Hb) as (pre & post & Hl & Hx & Hpre).
    exists pre, post, (set_status newStatus b).
    split; [exact Hl|].
    destruct (set_status_frame newStatus b) as [Hs Hsame].
    split; [exact Hs|]. split; [exact Hsame|].
    rewrite Hl at 1. now rewrite update_first_split.
Qed.

Lemma patch_bookings_status_effect_witness :
  exists b',
    fst (patch_bookings_status (mkAuth 1 "customer")
           "000000000000000000000003" (JStr "pending") sample_store)
    = res_json (BookingResult "Booking status updated" b')
    /\ Booking.status b' = "pending"
    /\ same_but_status completed_500 b'.
Proof.
  destruct (patch_bookings_status_effect (mkAuth 1 "customer")
              "000000000000000000000003" "pending" sample_store)
    as (_ & _ & H & _).
  destruct (H 3%N completed_500 eq_refl eq_refl)
    as (pre & post & b' & _ & Hs & Hsame & Hrun).
  exists b'. rewrite Hrun. split; [reflexivity|]. split; assumption.
Defined.

(** C2 as stated fails: an identifier that is not an ObjectId resolves to
    no booking and is answered 500, not 404. *)
Lemma patch_bookings_status_malformed_id :
  (forall b, In b (Bookings sample_store) ->
             ObjectId_of_string "abc" <> Some (Booking._id b))
  /\ patch_bookings_status (mkAuth 1 "customer") "abc" (JStr "completed")
                           sample_store
     = (server_error (CastError "ObjectId" "_id"), sample_store)
  /\ status (fst (patch_bookings_status (mkAuth 1 "customer") "abc"
                                        (JStr "completed") sample_store))
     <> 404.
Proof.
  split; [intros b _; discriminate|].
  split; [reflexivity|].
  simpl. discriminate.
Qed.

(* ================================================================= *)
(** ** POST /api/auth/signup *)

Lemma User_findOne_email_registered (email : string) (st : Store) (u : User.t) :
  emails_lowercase st -> In u (Users st) ->
  toLowerCase (User.email u) = toLowerCase email ->
  exists v, User_findOne_email (JStr email) st = (Ok (Some v), st).
Proof.
  intros Hlow Hin Heq. unfold User_findOne_email, gets. simpl.
  destruct (find (fun v => (User.email v =? toLowerCase email)%string)
                 (Users st)) as [v|] eqn:Hf.
  - now exists v.
  - exfalso. pose proof (find_none _ _ Hf u Hin) as Hu. simpl in Hu.
    apply String.eqb_neq in Hu. apply Hu.
    rewrite (Hlow u Hin). exact Heq.
Qed.

(** C3, as the code has it.  With stored emails in lower case, a signup
    whose email is that of a registered user when case is ignored is answered
    400 and leaves the store as it was; the answer is the duplicate email
    one when the five fields are present and the password has at least 8
    characters (the validation errors come first otherwise). *)
Theorem post_auth_signup_registered_email
  (P : Platform) (fullName phone gender password : jsval) (email : string)
  (created : Z) (st : Store) (u : User.t) :
  emails_lowercase st ->
  In u (Users st) ->
  toLowerCase (User.email u) = toLowerCase email ->
  snd (post_auth_signup P fullName (JStr email) phone gender password created st)
  = st
  /\ status (fst (post_auth_signup P fullName (JStr email) phone gender
                                   password created st)) = 400
  /\ (truthy fullName = true -> truthy (JStr email) = true ->
      truthy phone = true -> truthy gender = true ->
      truthy password = true -> length_lt password 8 = false ->
      fst (post_auth_signup P fullName (JStr email) phone gender password
                            created st)
      = mkResponse 400 (Message "User already exists with this email")).
Proof.
  intros Hlow Hin Heq.
  destruct (User_findOne_email_registered email st u Hlow Hin Heq) as [v Hv].
  unfold post_auth_signup, try_catch, bind.
  destruct (negb (truthy fullName) || negb (truthy (JStr email))
            || negb (truthy phone) || negb (truthy gender)
            || negb (truthy password)) eqn:Hreq.
  - repeat split. intros H1 H2 H3 H4 H5 _.
    rewrite H1, H2, H3, H4, H5 in Hreq. discriminate.
  - destruct (length_lt password 8) eqn:Hlen.
    + repeat split. intros _ _ _ _ _ H. discriminate.
    + rewrite Hv. repeat split.
Qed.

(** C3 as stated fails: with a password that is too short the answer to a
    signup with a registered email is the password error. *)
Lemma post_auth_signup_registered_email_short_password :
  In ann (Users users_only)
  /\ toLowerCase (User.email ann) = toLowerCase "ANN@x.com"
  /\ fst (post_auth_signup sample_platform (JStr "Bob") (JStr "ANN@x.com")
            (JStr "5550101") (JStr "male") (JStr "short") 2000 users_only)
     = mkResponse 400 (Message "Password must be at least 8 characters")
  /\ fst (post_auth_signup sample_platform (JStr "Bob") (JStr "ANN@x.com")
            (JStr "5550101") (JStr "male") (JStr "short") 2000 users_only)
     <> mkResponse 400 (Message "User already exists with this email").
Proof.
  split; [now left|]. split; [reflexivity|]. split; [reflexivity|].
  discriminate.
Qed.

Lemma emails_lowercase_users_only : emails_lowercase users_only.
Proof. intros u [<-|[]]. reflexivity. Qed.

Lemma post_auth_signup_registered_email_witness :
  fst (post_auth_signup sample_platform (JStr "Bob") (JStr "ANN@x.com")
         (JStr "5550101") (JStr "male") (JStr "password2") 2000 users_only)
  = mkResponse 400 (Message "User already exists with this email").
Proof.
  apply (post_auth_signup_registered_email sample_platform (JStr "Bob")
           (JStr "5550101") (JStr "male") (JStr "password2") "ANN@x.com" 2000
           users_only ann emails_lowercase_users_only);
    solve [reflexivity | now left].
Defined.

(** Signup keeps the stored emails in lower case and pairwise distinct. *)
Lemma toLowerCase_idempotent (s : string) :
  toLowerCase (toLowerCase s) = toLowerCase s.
Proof.
  induction s as [|c r IH]; simpl; [reflexivity|].
  rewrite IH. f_equal.
  unfold lower_ascii at 1.
  destruct (is_upper (lower_ascii c)) eqn:E; [|reflexivity].
  exfalso. revert E. unfold lower_ascii.
  destruct c as [[] [] [] [] [] [] [] []]; vm_compute; discriminate.
Qed.

Lemma User_validate_email (i : ObjectId) (f e p g : jsval) (h : string)
  (created : Z) (u : User.t) :
  User_validate i f e p g h created = Some u ->
  User.email u = toLowerCase (User.email u).
Proof.
  unfold User_validate.
  destruct (castString f), (castString e), (castString p), (castString g);
    try discriminate.
  destruct (_ && _); [|discriminate].
  intros [= <-]. simpl. now rewrite toLowerCase_idempotent.
Qed.

Lemma User_save_keeps_emails (f e p g : jsval) (h : string) (created : Z)
  (st : Store) :
  emails_lowercase st -> NoDup (map User.email (Users st)) ->
  emails_lowercase (snd (User_save f e p g h created st))
  /\ NoDup (map User.email (Users (snd (User_save f e p g h created st)))).
Proof.
  intros Hlow Hnd. unfold User_save.
  destruct (User_validate _ _ _ _ _ _ _) as [u|] eqn:Hu; simpl; [|now split].
  destruct (existsb _ (Users st)) eqn:Hex; simpl; [now split|].
  split.
  - intros v Hv. apply in_app_or in Hv as [Hv|[<-|[]]].
    + now apply Hlow.
    + eapply User_validate_email; exact Hu.
  - rewrite map_app. simpl.
    apply Permutation_NoDup with (l := User.email u :: map User.email (Users st)).
    + apply Permutation_cons_append.
    + constructor; [|exact Hnd].
      intros Hin. apply in_map_iff in Hin as (v & Hv & Hin).
      assert (Hc : existsb (fun v => (User.email v =? User.email u)%string)
                           (Users st) = true).
      { apply existsb_exists. exists v. split; [exact Hin|].
        now apply String.eqb_eq. }
      congruence.
Qed.

(** X4: signup keeps the stored emails in lower case and pairwise
    distinct, whatever the request. *)
Lemma post_auth_signup_keeps_emails
  (P : Platform) (fullName email phone gender password : jsval) (created : Z)
  (st : Store) :
  emails_lowercase st -> NoDup (map User.email (Users st)) ->
  emails_lowercase (snd (post_auth_signup P fullName email phone gender
                                          password created st))
  /\ NoDup (map User.email
              (Users (snd (post_auth_signup P fullName email phone gender
                                            password created st)))).
Proof.
  intros Hlow Hnd.
  unfold post_auth_signup, try_catch, bind.
  destruct (_ || _); [now split|].
  destruct (length_lt password 8); [now split|].
  assert (Hfind : exists o, User_findOne_email email st = (o, st)).
  { unfold User_findOne_email, gets, ret, throw.
    destruct (castString email); eexists; reflexivity. }
  destruct Hfind as [o ->].
  destruct o as [[v|]|err]; try now split.
  unfold hash_password.
  destruct password; try now split.
  unfold ret.
  pose proof (User_save_keeps_emails fullName email phone gender
                (bcrypt_hash P s) created st Hlow Hnd) as Hsave.
  destruct (User_save _ _ _ _ _ _ st) as [[u|err] st'']; exact Hsave.
Qed.

(* ================================================================= *)
(** ** POST /api/auth/login *)

(** C4, as the code has it.  When the email and the password of both
    requests are strings that are not empty, a login with the email of a
    registered user
    and a password that matches none of the users of that email, and a login
    with an email of no user, get the same answer, 401 with the one body,
    and leave the store as it was. *)
Theorem post_auth_login_uniform
  (P : Platform) (st : Store) (email1 password1 email2 password2 : string) :
  email1 <> EmptyString -> password1 <> EmptyString ->
  email2 <> EmptyString -> password2 <> EmptyString ->
  (exists u, In u (Users st) /\ User.email u = toLowerCase email1) ->
  (forall u, In u (Users st) -> User.email u = toLowerCase email1 ->
             bcrypt_compare P password1 (User.password u) = false) ->
  (forall u, In u (Users st) -> User.email u <> toLowerCase email2) ->
  post_auth_login P (JStr email1) (JStr password1) st
  = (mkResponse 401 (Message "Invalid credentials"), st)
  /\ post_auth_login P (JStr email2) (JStr password2) st
     = post_auth_login P (JStr email1) (JStr password1) st.
Proof.
  intros He1 Hp1 He2 Hp2 (u & Hu & Hue) Hwrong Hnone.
  assert (T : forall s, s <> EmptyString -> truthy (JStr s) = true).
  { intros s Hs. simpl. apply negb_true_iff. now apply String.eqb_neq. }
  assert (H2 : post_auth_login P (JStr email2) (JStr password2) st
               = (mkResponse 401 (Message "Invalid credentials"), st)).
  { unfold post_auth_login, try_catch, bind.
    rewrite (T _ He2), (T _ Hp2). simpl.
    unfold User_findOne_email, gets. simpl.
    replace (find _ (Users st)) with (@None User.t); [reflexivity|].
    symmetry. apply find_none_iff. intros v Hv.
    apply String.eqb_neq. now apply Hnone. }
  assert (H1 : post_auth_login P (JStr email1) (JStr password1) st
               = (mkResponse 401 (Message "Invalid credentials"), st)).
  { unfold post_auth_login, try_catch, bind.
    rewrite (T _ He1), (T _ Hp1). simpl.
    unfold User_findOne_email, gets. simpl.
    destruct (find _ (Users st)) as [v|] eqn:Hf.
    - apply find_some in Hf as [Hv Hve]. apply String.eqb_eq in Hve.
      simpl. now rewrite (Hwrong v Hv Hve).
    - reflexivity. }
  split; [exact H1 | now rewrite H1, H2].
Qed.

Lemma post_auth_login_uniform_witness :
  post_auth_login sample_platform (JStr "Ann@x.com") (JStr "password9")
                  users_only
  = (mkResponse 401 (Message "Invalid credentials"), users_only)
  /\ post_auth_login sample_platform (JStr "nobody@x.com") (JStr "password1")
                     users_only
     = post_auth_login sample_platform (JStr "Ann@x.com") (JStr "password9")
                       users_only.
Proof.
  apply (post_auth_login_uniform sample_platform users_only "Ann@x.com"
           "password9" "nobody@x.com" "password1"); try discriminate.
  - exists ann. split; [now left | reflexivity].
  - intros u [<-|[]] _. reflexivity.
  - intros u [<-|[]]. discriminate.
Defined.

(** A password that is not a string is refused by [bcrypt.compare], which
    the handler calls only once the email is found: the answer is then 500
    for a registered email and 401 for an email of no user. *)
Lemma post_auth_login_number_password :
  fst (post_auth_login sample_platform (JStr "ann@x.com") (JNum 12345678)
                       users_only)
  = server_error IllegalArguments
  /\ fst (post_auth_login sample_platform (JStr "nobody@x.com")
                          (JNum 12345678) users_only)
     = mkResponse 401 (Message "Invalid credentials").
Proof. split; reflexivity. Qed.

(** C4 as stated fails: a login with an email of no user and an empty
    password is answered 400, a login with a registered email and a wrong
    password 401. *)
Lemma post_auth_login_empty_password :
  fst (post_auth_login sample_platform (JStr "ann@x.com") (JStr "password9")
                       users_only)
  = mkResponse 401 (Message "Invalid credentials")
  /\ fst (post_auth_login sample_platform (JStr "nobody@x.com")
                          (JStr EmptyString) users_only)
     = mkResponse 400 (Message "Email and password are required")
  /\ fst (post_auth_login sample_platform (JStr "nobody@x.com")
                          (JStr EmptyString) users_only)
     <> fst (post_auth_login sample_platform (JStr "ann@x.com")
                             (JStr "password9") users_only).
Proof.
  split; [reflexivity|]. split; [reflexivity|]. discriminate.
Qed.

(* ================================================================= *)
(** ** POST /api/bookings *)

Lemma substring_whole (s : string) : substring 0 (String.length s) s = s.
Proof. induction s as [|c r IH]; simpl; [reflexivity | now rewrite IH]. Qed.

Lemma substring_skip (s1 s2 : string) :
  substring (String.length s1) (String.length s2) (s1 ++ s2) = s2.
Proof.
  induction s1 as [|c r IH]; simpl.
  - apply substring_whole.
  - exact IH.
Qed.

Lemma string_length_app (s1 s2 : string) :
  String.length (s1 ++ s2) = (String.length s1 + String.length s2)%nat.
Proof. induction s1 as [|c r IH]; simpl; [reflexivity | now rewrite IH]. Qed.

Lemma slice_last_app (s1 s2 : string) :
  slice_last (String.length s2) (s1 ++ s2) = s2.
Proof.
  unfold slice_last. rewrite string_length_app.
  replace (String.length s1 + String.length s2 - String.length s2)%nat
    with (String.length s1) by lia.
  apply substring_skip.
Qed.

Lemma string_of_list_ascii_app (l1 l2 : list ascii) :
  string_of_list_ascii (l1 ++ l2)
  = (string_of_list_ascii l1 ++ string_of_list_ascii l2)%string.
Proof. induction l1 as [|c r IH]; simpl; [reflexivity | now rewrite IH]. Qed.

Lemma decimal_digit_succ (n : Z) (i : nat) :
  (0 <= n)%Z -> decimal_digit n (S i) = decimal_digit (n / 10) i.
Proof.
  intros Hn. unfold decimal_digit. do 2 f_equal.
  rewrite Nat2Z.inj_succ, Z.pow_succ_r by lia.
  rewrite Z.div_div by lia. reflexivity.
Qed.

(** A number of at least [k + 1] digits starts, from the right, with its
    digits of weight [10^0] to [10^k]. *)
Lemma digits_rev_low (k : nat) :
  forall (fuel : nat) (n : Z),
    (10 ^ Z.of_nat k <= n)%Z -> (k <= fuel)%nat ->
    exists rest,
      digits_rev fuel n = map (decimal_digit n) (seq 0 (S k)) ++ rest.
Proof.
  induction k as [|k IH]; intros fuel n Hn Hk.
  - simpl in Hn. exists (tl (digits_rev fuel n)).
    destruct fuel as [|f]; simpl; unfold decimal_digit; simpl;
      rewrite Z.div_1_r.
    + reflexivity.
    + destruct (n <? 10)%Z eqn:E; simpl; [|reflexivity].
      apply Z.ltb_lt in E. rewrite Z.mod_small by lia. reflexivity.
  - destruct fuel as [|f]; [lia|].
    rewrite Nat2Z.inj_succ, Z.pow_succ_r in Hn by lia.
    assert (Hpos : (0 < 10 ^ Z.of_nat k)%Z) by (apply Z.pow_pos_nonneg; lia).
    assert (H10 : (10 ^ Z.of_nat k <= n / 10)%Z).
    { apply Z.div_le_lower_bound; lia. }
    destruct (IH f (n / 10)%Z H10 ltac:(lia)) as [rest Hrest].
    exists rest.
    assert (Hmap : map (decimal_digit n) (seq 0 (S (S k)))
                   = decimal_digit n 0
                     :: map (decimal_digit (n / 10)) (seq 0 (S k))).
    { rewrite <- cons_seq, <- seq_shift, map_cons, map_map. f_equal.
      apply map_ext. intros i. apply decimal_digit_succ. lia. }
    rewrite Hmap. cbn [digits_rev].
    replace (n <? 10)%Z with false by (symmetry; apply Z.ltb_ge; lia).
    rewrite Hrest. cbn [app]. f_equal.
    unfold decimal_digit. cbn [Z.of_nat]. now rewrite Z.pow_0_r, Z.div_1_r.
Qed.

Lemma slice_last_toString (n : Z) :
  (100000 <= n)%Z -> slice_last 6 (toString n) = last_six_digits n.
Proof.
  intros Hn. unfold toString.
  replace (n <? 0)%Z with false by (symmetry; apply Z.ltb_ge; lia).
  unfold digits_of.
  assert (Hfuel : (5 <= Z.to_nat (Z.log2 n))%nat).
  { assert (Z.log2 100000 <= Z.log2 n)%Z by (apply Z.log2_le_mono; lia).
    change (Z.log2 100000) with 16%Z in H. lia. }
  destruct (digits_rev_low 5 (Z.to_nat (Z.log2 n)) n) as [rest Hrest];
    [simpl; lia | exact Hfuel |].
  rewrite Hrest, rev_app_distr, string_of_list_ascii_app.
  change (string_of_list_ascii (rev (map (decimal_digit n) (seq 0 6))))
    with (last_six_digits n).
  change 6%nat with (String.length (last_six_digits n)) at 1.
  apply slice_last_app.
Qed.

(** C5: a call to create with a clock past the first 100 seconds of the
    epoch either leaves the store as it was or adds exactly one booking,
    which it returns with 201; the status of that booking is pending and
    its bookingId is BK followed by the last six decimal digits of the
    millisecond timestamp. *)
Theorem post_bookings_persisted
  (P : Platform) (req : Auth)
  (providerId service date time location amount : jsval) (now created : Z)
  (st : Store) :
  (100000 <= now)%Z ->
  snd (post_bookings P req providerId service date time location amount now
                     created st) = st
  \/ exists b,
       post_bookings P req providerId service date time location amount now
                     created st
       = (mkResponse 201 (BookingResult "Booking created successfully" b),
          mkStore (Users st) (Providers st) (Bookings st ++ [b]))
       /\ Booking.status b = "pending"
       /\ Booking.bookingId b = ("BK" ++ last_six_digits now)%string.
Proof.
  intros Hnow.
  unfold post_bookings, try_catch, bind, Booking_save.
  rewrite (slice_last_toString now Hnow).
  destruct (Booking_validate _ _ _ _ _ _ _ _ _ _ _ _) as [b|] eqn:Hb;
    [|now left].
  destruct (existsb _ (Bookings st)); [now left|].
  right. exists b. split; [reflexivity|].
  revert Hb. unfold Booking_validate.
  destruct (castObjectId providerId), (castString service),
    (castDate (Date_of P) date), (castString time), (castString location),
    (castNumber amount); try discriminate.
  destruct (_ && _); [|discriminate].
  intros [= <-]. split; reflexivity.
Qed.

Lemma post_bookings_persisted_witness :
  exists b,
    Bookings (snd (post_bookings sample_platform (mkAuth 1 "customer")
                     (JStr "000000000000000000000002") (JStr "plumbing")
                     (JStr "1700000000000") (JStr "10:00") (JStr "Pune")
                     (JNum 500) 1700000000123 1700000000124 users_only))
    = [b]
    /\ Booking.status b = "pending"
    /\ Booking.bookingId b = "BK000123".
Proof.
  destruct (post_bookings_persisted sample_platform (mkAuth 1 "customer")
              (JStr "000000000000000000000002") (JStr "plumbing")
              (JStr "1700000000000") (JStr "10:00") (JStr "Pune")
              (JNum 500) 1700000000123 1700000000124 users_only)
    as [H|(b & H & Hs & Hi)].
  - lia.
  - discriminate H.
  - exists b. rewrite H. simpl. split; [reflexivity|]. split; assumption.
Defined.

(** C9: the handler checks no field itself; when one of the six required
    fields of the body is absent the validation of the store layer fails,
    the answer is 500 with the message Server error and no booking is
    stored. *)
Theorem post_bookings_absent_field
  (P : Platform) (req : Auth)
  (providerId service date time location amount : jsval) (now created : Z)
  (st : Store) :
  providerId = JUndefined \/ service = JUndefined \/ date = JUndefined
  \/ time = JUndefined \/ location = JUndefined \/ amount = JUndefined ->
  post_bookings P req providerId service date time location amount now
                created st
  = (mkResponse 500 (Failure "Server error" (ValidationError "Booking")), st).
Proof.
  intros H.
  unfold post_bookings, try_catch, bind, Booking_save.
  replace (Booking_validate _ _ _ _ _ _ _ _ _ _ _ _) with (@None Booking.t);
    [reflexivity|].
  unfold Booking_validate.
  destruct H as [ -> | [ -> | [ -> | [ -> | [ -> | -> ] ] ] ] ]; simpl;
    try reflexivity;
    repeat match goal with
           | |- context [match ?c with Absent => _ | Value _ => _ | Invalid => _ end] =>
               destruct c; try reflexivity
           end.
Qed.

Lemma post_bookings_absent_field_witness :
  post_bookings sample_platform (mkAuth 1 "customer")
                (JStr "000000000000000000000002") (JStr "plumbing")
                (JStr "1700000000000") (JStr "10:00") (JStr "Pune")
                JUndefined 1700000000123 1700000000124 users_only
  = (mkResponse 500 (Failure "Server error" (ValidationError "Booking")),
     users_only).
Proof.
  apply post_bookings_absent_field. repeat right. reflexivity.
Defined.

(* ================================================================= *)
(** ** POST /api/providers/register *)

Lemma Provider_validate_castable (i u : ObjectId) (s e l a : jsval) (c : Z) :
  Provider_castable s e l a = true ->
  exists p, Provider_validate i u s e l a c = Some p
            /\ Provider._id p = i /\ Provider.userId p = u.
Proof.
  unfold Provider_castable, Provider_validate. intros H.
  apply negb_true_iff in H. rewrite H.
  eexists. split; [reflexivity|]. split; reflexivity.
Qed.

Lemma Provider_validate_not_castable (i u : ObjectId) (s e l a : jsval) (c : Z) :
  Provider_castable s e l a = false -> Provider_validate i u s e l a c = None.
Proof.
  unfold Provider_castable, Provider_validate. intros H.
  apply negb_false_iff in H. now rewrite H.
Qed.

(** Well-typed fields are castable. *)
Lemma Provider_castable_typed (ss : list string) (e : Z) (l a : string) :
  Provider_castable (JArr (map JStr ss)) (JNum e) (JStr l) (JStr a) = true.
Proof.
  unfold Provider_castable. simpl.
  replace (castStrings (map JStr ss)) with (Value ss); [reflexivity|].
  induction ss as [|x r IH]; simpl; [reflexivity|]. now rewrite <- IH.
Qed.

Lemma find_update_first {A : Type} (p : A -> bool) (f : A -> A) (l : list A)
  (x : A) :
  find p l = Some x -> p (f x) = true ->
  find p (update_first p f l) = Some (f x).
Proof.
  induction l as [|y r IH]; simpl; [discriminate|].
  destruct (p y) eqn:E.
  - intros [= ->] Hf. simpl. now rewrite Hf.
  - intros H Hf. simpl. rewrite E. now apply IH.
Qed.

Lemma User_findById_set_role (id : ObjectId) (r : string) (st : Store)
  (u : User.t) (ps : list Provider.t) (bs : list Booking.t) :
  User_findById id st = Some u ->
  User_findById id
    (mkStore (update_first (fun v => (User._id v =? id)%N) (set_role r)
                           (Users st)) ps bs)
  = Some (set_role r u).
Proof.
  unfold User_findById. simpl. intros H.
  apply find_update_first; [exact H|].
  apply find_some in H as [_ H]. exact H.
Qed.

(** C6, as the code has it.  When a Provider record is stored for the
    caller the answer is 400 and the store stays as it was.  When none is,
    the role of the caller's User record, if there is one, becomes provider,
    and then: if the four fields cast, one Provider record, of the caller's
    userId, is added and returned with 201; if they do not, the answer is
    500 and no Provider record is added. *)
Theorem post_providers_register_effect
  (req : Auth) (services experience location availability : jsval)
  (created : Z) (st : Store) :
  (forall p0,
     Provider_findOne_userId (userId req) st = Some p0 ->
     post_providers_register req services experience location availability
                             created st
     = (mkResponse 400 (Message "Already registered as provider"), st))
  /\ (Provider_findOne_userId (userId req) st = None ->
      exists users',
        Users (snd (post_providers_register req services experience location
                                            availability created st)) = users'
        /\ (forall u, User_findById (userId req) st = Some u ->
                      find (fun v => (User._id v =? userId req)%N) users'
                      = Some (set_role "provider" u))
        /\ (Provider_castable services experience location availability = true ->
            exists p,
              post_providers_register req services experience location
                                      availability created st
              = (mkResponse 201
                   (ProviderResult "Provider registration successful" p),
                 mkStore users' (Providers st ++ [p]) (Bookings st))
              /\ Provider.userId p = userId req)
        /\ (Provider_castable services experience location availability = false ->
            post_providers_register req services experience location
                                    availability created st
            = (mkResponse 500
                 (Failure "Server error" (ValidationError "Provider")),
               mkStore users' (Providers st) (Bookings st)))).
Proof.
  unfold post_providers_register, try_catch, bind, gets.
  split.
  - intros p0 ->. reflexivity.
  - intros ->. unfold User_findByIdAndUpdate_role, Provider_save.
    cbn [fst snd Users Providers Bookings].
    exists (update_first (fun v => (User._id v =? userId req)%N)
                         (set_role "provider") (Users st)).
    split; [|split; [|split]].
    + destruct (Provider_castable services experience location availability)
        eqn:Hc.
      * edestruct Provider_validate_castable as (p & -> & _); [exact Hc|].
        reflexivity.
      * rewrite Provider_validate_not_castable by exact Hc. reflexivity.
    + intros u Hu.
      exact (User_findById_set_role (userId req) "provider" st u
               (Providers st) (Bookings st) Hu).
    + intros Hc.
      edestruct Provider_validate_castable as (p & -> & _ & Hp); [exact Hc|].
      exists p. split; [reflexivity | exact Hp].
    + intros Hc. rewrite Provider_validate_not_castable by exact Hc.
      reflexivity.
Qed.

Lemma post_providers_register_effect_witness :
  exists p,
    Providers (snd (post_providers_register (mkAuth 1 "customer")
                      (JArr [JStr "plumbing"]) (JNum 3) (JStr "Mumbai")
                      (JStr "weekdays") 2000 users_only)) = [p]
    /\ Provider.userId p = 1%N
    /\ find (fun v => (User._id v =? 1)%N)
             (Users (snd (post_providers_register (mkAuth 1 "customer")
                            (JArr [JStr "plumbing"]) (JNum 3) (JStr "Mumbai")
                            (JStr "weekdays") 2000 users_only)))
       = Some (set_role "provider" ann).
Proof.
  destruct (post_providers_register_effect (mkAuth 1 "customer")
              (JArr [JStr "plumbing"]) (JNum 3) (JStr "Mumbai")
              (JStr "weekdays") 2000 users_only) as [_ H].
  destruct (H eq_refl) as (users' & Hu & Hrole & Hok & _).
  destruct (Hok eq_refl) as (p & Hrun & Hp).
  exists p. rewrite Hu, Hrun. split; [reflexivity|]. split; [exact Hp|].
  exact (Hrole ann eq_refl).
Defined.

(** C6 as stated fails: no Provider record is stored for the caller, and a
    registration whose experience is not a number stores none either. *)
Lemma post_providers_register_uncastable :
  Provider_findOne_userId 1 users_only = None
  /\ status (fst (post_providers_register (mkAuth 1 "customer")
                     (JArr [JStr "plumbing"]) (JStr "abc") (JStr "Mumbai")
                     (JStr "weekdays") 2000 users_only)) = 500
  /\ Providers (snd (post_providers_register (mkAuth 1 "customer")
                       (JArr [JStr "plumbing"]) (JStr "abc") (JStr "Mumbai")
                       (JStr "weekdays") 2000 users_only)) = [].
Proof. repeat split. Qed.

(** C10: when no Provider record is stored for the caller, the caller's
    User record exists and the Provider record cannot be stored, the answer
    is 500, the role of the User record is provider and still no Provider
    record is stored for the caller; the store has changed unless the role
    was provider already. *)
Theorem post_providers_register_not_atomic
  (req : Auth) (services experience location availability : jsval)
  (created : Z) (st : Store) (u : User.t) :
  Provider_findOne_userId (userId req) st = None ->
  User_findById (userId req) st = Some u ->
  Provider_castable services experience location availability = false ->
  status (fst (post_providers_register req services experience location
                                       availability created st)) = 500
  /\ (exists u',
        User_findById (userId req)
          (snd (post_providers_register req services experience location
                                        availability created st)) = Some u'
        /\ User.role u' = "provider")
  /\ Provider_findOne_userId (userId req)
       (snd (post_providers_register req services experience location
                                     availability created st)) = None
  /\ (User.role u <> "provider" ->
      snd (post_providers_register req services experience location
                                   availability created st) <> st).
Proof.
  intros Hnone Hu Hc.
  unfold post_providers_register, try_catch, bind, gets.
  rewrite Hnone.
  unfold User_findByIdAndUpdate_role, Provider_save.
  rewrite Provider_validate_not_castable by exact Hc.
  cbn [fst snd status server_error].
  pose proof (User_findById_set_role _ "provider" _ _ (Providers st)
                (Bookings st) Hu) as Hu'.
  split; [reflexivity|]. split; [|split].
  - exists (set_role "provider" u). split; [exact Hu' | reflexivity].
  - exact Hnone.
  - intros Hrole Heq. rewrite Heq in Hu'. rewrite Hu in Hu'.
    injection Hu' as Hu'. apply Hrole. rewrite Hu'. reflexivity.
Qed.

Lemma post_providers_register_not_atomic_witness :
  status (fst (post_providers_register (mkAuth 1 "customer")
                 (JArr [JStr "plumbing"]) (JStr "three years") (JStr "Mumbai")
                 (JStr "weekdays") 2000 users_only)) = 500
  /\ snd (post_providers_register (mkAuth 1 "customer")
            (JArr [JStr "plumbing"]) (JStr "three years") (JStr "Mumbai")
            (JStr "weekdays") 2000 users_only) <> users_only.
Proof.
  destruct (post_providers_register_not_atomic (mkAuth 1 "customer")
              (JArr [JStr "plumbing"]) (JStr "three years") (JStr "Mumbai")
              (JStr "weekdays") 2000 users_only ann)
    as (H500 & _ & _ & Hchanged); try reflexivity.
  split; [exact H500|]. apply Hchanged. discriminate.
Defined.

(* ================================================================= *)
(** ** GET /api/providers *)

Lemma compile_plain (f : string) :
  plain f = true ->
  RegExp.compile f = Some (map RegExp.Lit (list_ascii_of_string f)).
Proof.
  unfold plain. induction f as [|c r IH]; simpl; [reflexivity|].
  intros H. apply andb_true_iff in H as [Hc Hr].
  apply negb_true_iff in Hc.
  destruct (c =? ".")%char eqn:Hdot.
  - apply Ascii.eqb_eq in Hdot. subst c. discriminate Hc.
  - rewrite Hc, (IH Hr). reflexivity.
Qed.

Lemma match_here_literals (f s : string) :
  RegExp.match_here (map RegExp.Lit (list_ascii_of_string f)) s
  = prefix (toLowerCase f) (toLowerCase s).
Proof.
  revert s. induction f as [|c r IH]; intros s; simpl;
    [now destruct s|].
  destruct s as [|d t]; simpl; [reflexivity|].
  rewrite IH.
  destruct (ascii_dec (lower_ascii c) (lower_ascii d)) as [E|E].
  - rewrite E, Ascii.eqb_refl. reflexivity.
  - apply Ascii.eqb_neq in E. rewrite E. reflexivity.
Qed.

(** On a plain filter the pattern search is the search of a substring with
    case ignored. *)
Lemma test_literals (f s : string) :
  RegExp.test (map RegExp.Lit (list_ascii_of_string f)) s = contains_ci f s.
Proof.
  unfold contains_ci.
  induction s as [|d t IH]; simpl; rewrite match_here_literals.
  - reflexivity.
  - rewrite IH. reflexivity.
Qed.

Lemma map_doc_populate_provider (st : Store) (l : list Provider.t) :
  map PopulatedProvider.doc (map (populate_provider st) l) = l.
Proof. rewrite map_map. simpl. apply map_id. Qed.

Lemma given_some (param : option string) (s : string) :
  given param = Some s <-> param = Some s /\ s <> EmptyString.
Proof.
  unfold given. destruct param as [x|]; simpl.
  - destruct (x =? EmptyString)%string eqn:E; simpl; split.
    + discriminate.
    + intros [[= ->] H]. apply String.eqb_eq in E. contradiction.
    + intros [= ->]. split; [reflexivity|]. now apply String.eqb_neq.
    + now intros [[= ->] _].
  - split; [discriminate | now intros [? _]].
Qed.

Lemma get_providers_run (rest : RegExp.engine)
  (service location : option string) (st : Store) :
  (exists f,
     given location = Some f /\ RegExp.new_RegExp_i rest f = None
     /\ get_providers rest service location st
        = (server_error (SyntaxError f), st))
  \/ (exists search,
        search = match given location with
                 | Some f => RegExp.new_RegExp_i rest f
                 | None => None
                 end
        /\ (forall f, given location = Some f -> search <> None)
        /\ get_providers rest service location st
           = (res_json
                (ProviderList
                   (map (populate_provider st)
                        (Provider_find
                           (mkProviderQuery (Some true) (given service) search)
                           st))),
              st)).
Proof.
  unfold get_providers, try_catch, bind, gets, ret, throw.
  destruct (given location) as [f|].
  - destruct (RegExp.new_RegExp_i rest f) as [search|] eqn:Hre.
    + right. exists (Some search). split; [reflexivity|].
      split; [intros g _; discriminate|].
      now destruct (given service).
    + left. exists f. now repeat split.
  - right. exists None. split; [reflexivity|].
    split; [discriminate|]. now destruct (given service).
Qed.

Lemma Provider_find_sound (service : option string)
  (search : option (string -> bool)) (st : Store) (p : Provider.t) :
  In p (Provider_find (mkProviderQuery (Some true) service search) st) <->
  In p (Providers st)
  /\ Provider.verified p = true
  /\ (forall s, service = Some s -> In s (Provider.services p))
  /\ (forall t, search = Some t ->
                exists loc, Provider.location p = Some loc /\ t loc = true).
Proof.
  unfold Provider_find. rewrite filter_In.
  unfold Provider_matches. simpl. rewrite !andb_true_iff.
  split.
  - intros (Hin & (Hv & Hs) & Hl).
    split; [exact Hin|]. split; [now destruct (Provider.verified p)|].
    split.
    + intros s ->.
      apply existsb_exists in Hs as (x & Hx & Hxs).
      apply String.eqb_eq in Hxs. now subst x.
    + intros t ->.
      destruct (Provider.location p) as [loc|]; [|discriminate].
      now exists loc.
  - intros (Hin & Hv & Hs & Hl).
    split; [exact Hin|]. split; [split|].
    + now rewrite Hv.
    + destruct service as [s|]; [|reflexivity].
      apply existsb_exists. exists s. split; [now apply Hs|].
      apply String.eqb_refl.
    + destruct search as [t|]; [|reflexivity].
      destruct (Hl t eq_refl) as (loc & -> & Ht). exact Ht.
Qed.

(** C7, as the code has it.  Every call is answered and leaves the store
    as it was: 500 when the location filter is not a well-formed pattern,
    200 otherwise.  Whatever the filters, the providers listed are stored
    providers with [verified] true; each has the service filter, when one
    is given, among its services, and a location in which the search of the
    location filter, read as a pattern, succeeds.  When the location filter
    is plain (it has no special character of the pattern language), the
    answer is 200 with exactly the verified providers that have the service
    filter among their services and whose location contains the location
    filter with case ignored. *)
Theorem get_providers_filters (rest : RegExp.engine)
  (service location : option string) (st : Store) :
  snd (get_providers rest service location st) = st
  /\ (status (fst (get_providers rest service location st)) = 200
      \/ (status (fst (get_providers rest service location st)) = 500
          /\ exists f, given location = Some f
                       /\ RegExp.new_RegExp_i rest f = None))
  /\ (forall p,
        In p (provided (fst (get_providers rest service location st))) ->
        In p (Providers st)
        /\ Provider.verified p = true
        /\ (forall s, given service = Some s -> In s (Provider.services p))
        /\ (forall f, given location = Some f ->
                      exists search loc,
                        RegExp.new_RegExp_i rest f = Some search
                        /\ Provider.location p = Some loc
                        /\ search loc = true))
  /\ ((forall f, given location = Some f -> plain f = true) ->
      exists l,
        get_providers rest service location st
        = (res_json (ProviderList l), st)
        /\ forall p,
             In p (map PopulatedProvider.doc l) <->
             In p (Providers st)
             /\ Provider.verified p = true
             /\ (forall s, given service = Some s ->
                           In s (Provider.services p))
             /\ (forall f, given location = Some f ->
                           exists loc,
                             Provider.location p = Some loc
                             /\ contains_ci f loc = true)).
Proof.
  destruct (get_providers_run rest service location st)
    as [(f & Hf & Hre & Hrun)|(search & Hsearch & Hsome & Hrun)];
    rewrite Hrun; cbn [fst snd].
  - split; [reflexivity|]. split; [right; split; [reflexivity | now exists f]|].
    split; [intros p []|].
    intros Hplain. exfalso.
    unfold RegExp.new_RegExp_i in Hre.
    rewrite (compile_plain f (Hplain f Hf)) in Hre. discriminate.
  - split; [reflexivity|]. split; [now left|].
    split.
    + intros p Hp. unfold provided in Hp. cbn [json res_json] in Hp.
      rewrite map_doc_populate_provider in Hp.
      apply Provider_find_sound in Hp as (Hin & Hv & Hs & Hl).
      split; [exact Hin|]. split; [exact Hv|]. split; [exact Hs|].
      intros f Hf. rewrite Hf in Hsearch.
      destruct search as [t|]; [|now destruct (Hsome f Hf)].
      destruct (Hl t eq_refl) as (loc & Hloc & Ht).
      exists t, loc. now repeat split.
    + intros Hplain. eexists. split; [reflexivity|].
      intros p. rewrite map_doc_populate_provider, Provider_find_sound.
      split; intros (Hin & Hv & Hs & Hl);
        (split; [exact Hin|]; split; [exact Hv|]; split; [exact Hs|]).
      * intros f Hf. rewrite Hf in Hsearch.
        unfold RegExp.new_RegExp_i in Hsearch.
        rewrite (compile_plain f (Hplain f Hf)) in Hsearch.
        destruct (Hl _ Hsearch) as (loc & Hloc & Ht).
        exists loc. split; [exact Hloc|]. now rewrite <- test_literals.
      * intros t Ht. subst search.
        destruct (given location) as [f|]; [|discriminate].
        unfold RegExp.new_RegExp_i in Ht.
        rewrite (compile_plain f (Hplain f eq_refl)) in Ht.
        injection Ht as <-.
        destruct (Hl f eq_refl) as (loc & Hloc & Hc).
        exists loc. split; [exact Hloc|]. now rewrite test_literals.
Qed.

(** The filter mum finds the provider located in Mumbai. *)
Lemma get_providers_filters_witness :
  exists l,
    get_providers no_engine None (Some "mum") sample_store
    = (res_json (ProviderList l), sample_store)
    /\ In ann_provider (map PopulatedProvider.doc l).
Proof.
  destruct (get_providers_filters no_engine None (Some "mum") sample_store)
    as (_ & _ & _ & H).
  destruct H as (l & Hrun & Hl).
  - intros f [= <-]. reflexivity.
  - exists l. split; [exact Hrun|].
    apply Hl. split; [now left|]. split; [reflexivity|]. split.
    + intros s [=].
    + intros f [= <-]. exists "Mumbai". split; reflexivity.
Defined.

(** C7 as stated fails: the filter is read as a pattern, so m.m finds the
    provider located in Mumbai, which does not contain it. *)
Lemma get_providers_pattern_filter :
  provided (fst (get_providers no_engine None (Some "m.m") sample_store))
  = [ann_provider]
  /\ Provider.location ann_provider = Some "Mumbai"
  /\ contains_ci "m.m" "Mumbai" = false.
Proof. repeat split. Qed.

(* ================================================================= *)
(** ** GET /api/dashboard/stats *)

Lemma Booking_find_provider_status (i : ObjectId) (s : string) (st : Store) :
  Booking_find (mkBookingQuery (Some i) None (Some s)) st
  = filter (fun b => (Booking.status b =? s)%string)
           (filter (fun b => (Booking.providerId b =? i)%N) (Bookings st)).
Proof.
  unfold Booking_find, Booking_matches. simpl.
  induction (Bookings st) as [|b r IH]; simpl; [reflexivity|].
  rewrite andb_true_r.
  destruct (Booking.providerId b =? i)%N; simpl.
  - destruct (Booking.status b =? s)%string; now rewrite IH.
  - exact IH.
Qed.

(** C8: for a caller whose role is provider, the answer is 404 when no
    Provider record is stored for the caller; otherwise it is 200 with the
    number of the bookings of the caller's Provider record, the numbers of
    those that are pending and completed, the sum of the amounts of the
    completed ones (0 when there is none) and the stored rating; the store
    stays as it was. *)
Theorem get_dashboard_stats_provider (req : Auth) (st : Store) :
  userRole req = "provider" ->
  ((forall p, In p (Providers st) -> Provider.userId p <> userId req) ->
   get_dashboard_stats req st
   = (mkResponse 404 (Message "Provider profile not found"), st))
  /\ (forall p,
        Provider_findOne_userId (userId req) st = Some p ->
        get_dashboard_stats req st
        = (res_json
             (ProviderStatsResult
                (ProviderStats.mk
                   (count (bookings_of p st))
                   (count (with_status "pending" (bookings_of p st)))
                   (count (with_status "completed" (bookings_of p st)))
                   (revenue (with_status "completed" (bookings_of p st)))
                   (Provider.rating p))),
           st))
  /\ (forall p,
        with_status "completed" (bookings_of p st) = [] ->
        revenue (with_status "completed" (bookings_of p st)) = 0%Z).
Proof.
  intros Hrole.
  unfold get_dashboard_stats, try_catch, bind, gets, ret. rewrite Hrole.
  simpl.
  split; [|split].
  - intros Hnone. apply Provider_findOne_userId_none in Hnone.
    now rewrite Hnone.
  - intros p ->.
    unfold Booking_countDocuments, Booking_aggregate_total.
    rewrite Booking_find_providerId, !Booking_find_provider_status.
    unfold count, with_status, bookings_of, revenue.
    do 4 f_equal.
    destruct (filter _ (filter _ (Bookings st))) as [|b r] eqn:E;
      [reflexivity|].
    destruct (fold_right Z.add 0%Z (map Booking.amount (b :: r)) =? 0)%Z eqn:Z0;
      [|reflexivity].
    apply Z.eqb_eq in Z0. now rewrite Z0.
  - intros p ->. reflexivity.
Qed.

(** One completed booking of 500 and one pending booking of 300. *)
Lemma get_dashboard_stats_provider_witness :
  get_dashboard_stats (mkAuth 1 "provider") sample_store
  = (res_json (ProviderStatsResult (ProviderStats.mk 2 1 1 500 4)),
     sample_store).
Proof.
  destruct (get_dashboard_stats_provider (mkAuth 1 "provider") sample_store
              eq_refl) as (_ & H & _).
  exact (H ann_provider eq_refl).
Defined.

(* ================================================================= *)
(** ** The authorization header *)

Lemma split_word (w : string) :
  no_space w = true -> split " " w = [w].
Proof.
  unfold no_space. induction w as [|c r IH]; simpl; [reflexivity|].
  intros H. apply andb_true_iff in H as [Hc Hr].
  apply negb_true_iff in Hc. rewrite Hc, (IH Hr). reflexivity.
Qed.

Lemma split_first_word (w r : string) :
  no_space w = true -> split " " (w ++ String " " r)%string = w :: split " " r.
Proof.
  unfold no_space. induction w as [|c w' IH]; simpl; [reflexivity|].
  intros H. apply andb_true_iff in H as [Hc Hr].
  apply negb_true_iff in Hc. rewrite Hc, (IH Hr). reflexivity.
Qed.

(** X1: The scheme is not looked at: whatever word comes first, the second
    word is the token, and the call goes on exactly when it verifies. *)
Theorem verifyToken_second_word
  (P : Platform) (scheme token : string)
  (next : Auth -> Store -> response * Store) (st : Store) :
  no_space scheme = true -> no_space token = true -> token <> EmptyString ->
  verifyToken P (Some (scheme ++ String " " token)%string) next st
  = match jwt_verify P token with
    | Some decoded => next decoded st
    | None => (mkResponse 401 (Message "Invalid token"), st)
    end.
Proof.
  intros Hs Ht Hne. unfold verifyToken.
  rewrite (split_first_word scheme token Hs), (split_word token Ht).
  simpl. apply String.eqb_neq in Hne. now rewrite Hne.
Qed.

Lemma verifyToken_second_word_witness :
  verifyToken sample_platform (Some "Basic jwt.provider") get_bookings
              sample_store
  = get_bookings (mkAuth 1 "provider") sample_store.
Proof.
  apply (verifyToken_second_word sample_platform "Basic" "jwt.provider"
           get_bookings sample_store); [reflexivity | reflexivity | discriminate].
Defined.

(** X2: A header of one word, be it a token that verifies, is answered 401 No
    token provided, as is a missing header; the handler does not run. *)
Theorem verifyToken_one_word
  (P : Platform) (header : string)
  (next : Auth -> Store -> response * Store) (st : Store) :
  no_space header = true ->
  verifyToken P (Some header) next st
  = (mkResponse 401 (Message "No token provided"), st)
  /\ verifyToken P None next st
     = (mkResponse 401 (Message "No token provided"), st).
Proof.
  intros H. unfold verifyToken. rewrite (split_word header H). now split.
Qed.

Lemma verifyToken_one_word_witness :
  jwt_verify sample_platform "jwt.provider" = Some (mkAuth 1 "provider")
  /\ verifyToken sample_platform (Some "jwt.provider") get_bookings
                 sample_store
     = (mkResponse 401 (Message "No token provided"), sample_store).
Proof.
  split; [reflexivity|].
  apply (verifyToken_one_word sample_platform "jwt.provider" get_bookings
           sample_store). reflexivity.
Defined.

(* ================================================================= *)
(** ** Signup and login, together *)

Lemma post_auth_signup_cases
  (P : Platform) (fullName email phone gender password : jsval) (created : Z)
  (st : Store) :
  ((answered (post_auth_signup P fullName email phone gender password created st)
    = 400
    \/ answered (post_auth_signup P fullName email phone gender password
                                  created st) = 500)
   /\ snd (post_auth_signup P fullName email phone gender password created st)
      = st)
  \/ exists u e s,
       post_auth_signup P fullName email phone gender password created st
       = (mkResponse 201
            (Session "User registered successfully"
                     (jwt_sign P (User._id u) "customer") (info_of u)),
          mkStore (Users st ++ [u]) (Providers st) (Bookings st))
       /\ castString email = Value e
       /\ User.email u = toLowerCase e
       /\ (forall v, In v (Users st) -> User.email v <> User.email u)
       /\ User.role u = "customer"
       /\ password = JStr s
       /\ (8 <= String.length s)%nat
       /\ User.password u = bcrypt_hash P s
       /\ User.createdAt u = created
       /\ User._id u = fresh_id st.
Proof.
  unfold answered, post_auth_signup, try_catch, bind.
  destruct (_ || _) eqn:Hreq; [left; split; [now left | reflexivity]|].
  destruct (length_lt password 8) eqn:Hlen;
    [left; split; [now left | reflexivity]|].
  unfold User_findOne_email, gets, ret, throw.
  destruct (castString email) as [|e|] eqn:He; simpl.
  - (* an email that is truthy is never absent *)
    exfalso. rewrite !orb_false_iff in Hreq.
    destruct Hreq as [[[[_ Hem] _] _] _]. apply negb_false_iff in Hem.
    destruct email; simpl in *; discriminate.
  - destruct (find _ (Users st)) eqn:Hfind; simpl;
      [left; split; [now left | reflexivity]|].
    unfold hash_password.
    destruct password as [| | |s|]; simpl;
      try (left; split; [now right | reflexivity]).
    unfold User_save, User_validate. rewrite He.
    destruct (castString fullName) as [|f|]; simpl;
      try (left; split; [now right | reflexivity]).
    destruct (castString phone) as [|p|]; simpl;
      try (left; split; [now right | reflexivity]).
    destruct (castString gender) as [|g|]; simpl;
      try (left; split; [now right | reflexivity]).
    destruct (_ && _); simpl; [|left; split; [now right | reflexivity]].
    destruct (existsb _ (Users st)) eqn:Hex; simpl;
      [left; split; [now right | reflexivity]|].
    right.
    exists (User.mk (fresh_id st) f (toLowerCase e) p g (bcrypt_hash P s)
                    "customer" created), e, s.
    split; [reflexivity|]. split; [reflexivity|]. split; [reflexivity|].
    split.
    { intros v Hv Heq. simpl in Heq.
      pose proof (find_none _ _ Hfind v Hv) as Hn. simpl in Hn.
      apply String.eqb_neq in Hn. contradiction. }
    split; [reflexivity|]. split; [reflexivity|].
    split; [|repeat split; reflexivity].
    unfold length_lt in Hlen. simpl in Hlen.
    apply Nat.ltb_ge in Hlen. exact Hlen.
  - left; split; [now right | reflexivity].
Qed.

(** X3: The whole effect of a signup.  It is answered 201, 400 or 500, and the
    store changes only with 201: one user is then added, with the email of
    the request in lower case, which no stored user had, the role customer
    whatever the body says, and as password the hash of the one supplied,
    of 8 characters at least; the token is signed for its identifier, which
    no stored document has, and its role. *)
Theorem post_auth_signup_effect
  (P : Platform) (fullName email phone gender password : jsval) (created : Z)
  (st : Store) :
  ((answered (post_auth_signup P fullName email phone gender password created st)
    = 400
    \/ answered (post_auth_signup P fullName email phone gender password
                                  created st) = 500)
   /\ snd (post_auth_signup P fullName email phone gender password created st)
      = st)
  \/ exists u e s,
       post_auth_signup P fullName email phone gender password created st
       = (mkResponse 201
            (Session "User registered successfully"
                     (jwt_sign P (User._id u) "customer") (info_of u)),
          mkStore (Users st ++ [u]) (Providers st) (Bookings st))
       /\ castString email = Value e
       /\ User.email u = toLowerCase e
       /\ (forall v, In v (Users st) -> User.email v <> User.email u)
       /\ User.role u = "customer"
       /\ password = JStr s
       /\ (8 <= String.length s)%nat
       /\ User.password u = bcrypt_hash P s
       /\ User.createdAt u = created
       /\ User._id u = fresh_id st.
Proof.
  exact (post_auth_signup_cases P fullName email phone gender password
           created st).
Qed.

Lemma NoDup_users_only : NoDup (map User.email (Users users_only)).
Proof. repeat constructor. simpl. tauto. Qed.

Lemma post_auth_signup_keeps_emails_witness :
  emails_lowercase
    (snd (post_auth_signup sample_platform (JStr "Bob") (JStr "Bob@X.com")
            (JStr "5550101") (JStr "male") (JStr "password2") 2000 users_only))
  /\ NoDup (map User.email
              (Users (snd (post_auth_signup sample_platform (JStr "Bob")
                             (JStr "Bob@X.com") (JStr "5550101") (JStr "male")
                             (JStr "password2") 2000 users_only)))).
Proof.
  apply (post_auth_signup_keeps_emails sample_platform (JStr "Bob")
           (JStr "Bob@X.com") (JStr "5550101") (JStr "male")
           (JStr "password2") 2000 users_only emails_lowercase_users_only
           NoDup_users_only).
Defined.

(** X5: A login never writes, and it answers 200 only for the credentials of a
    stored user: the email, in lower case, is that user's, the password
    compares with the stored hash, and the token is signed for that user's
    identifier and stored role. *)
Theorem post_auth_login_sound
  (P : Platform) (email password : jsval) (st : Store) :
  snd (post_auth_login P email password st) = st
  /\ (answered (post_auth_login P email password st) = 200 ->
      exists u e s,
        In u (Users st)
        /\ castString email = Value e
        /\ User.email u = toLowerCase e
        /\ password = JStr s
        /\ bcrypt_compare P s (User.password u) = true
        /\ fst (post_auth_login P email password st)
           = res_json (Session "Login successful"
                               (jwt_sign P (User._id u) (User.role u))
                               (info_of u))).
Proof.
  unfold answered, post_auth_login, try_catch, bind.
  destruct (_ || _); [split; [reflexivity | discriminate]|].
  unfold User_findOne_email, gets, ret, throw.
  destruct (castString email) as [|e|] eqn:He; simpl;
    try (split; [reflexivity | discriminate]).
  destruct (find _ (Users st)) as [u|] eqn:Hfind; simpl;
    [|split; [reflexivity | discriminate]].
  apply find_some in Hfind as [Hin Hu]. apply String.eqb_eq in Hu.
  unfold compare_password.
  destruct password as [| | |s|]; simpl;
    try (split; [reflexivity | discriminate]).
  destruct (bcrypt_compare P s (User.password u)) eqn:Hc; simpl;
    [|split; [reflexivity | discriminate]].
  split; [reflexivity|]. intros _.
  exists u, e, s. repeat split; assumption.
Qed.

Lemma find_app_none {A : Type} (p : A -> bool) (l : list A) (x : A) :
  find p l = None -> p x = true -> find p (l ++ [x]) = Some x.
Proof.
  induction l as [|y r IH]; simpl; intros Hl Hx.
  - now rewrite Hx.
  - destruct (p y); [discriminate|]. now apply IH.
Qed.

(** X6: With a [compare] that accepts what [hash] made, a signup answered 201
    can be followed by a login with the same email and password, which is
    answered 200, with a token, for the new user, and writes nothing. *)
Theorem signup_then_login
  (P : Platform) (fullName email phone gender password : jsval) (created : Z)
  (st : Store) :
  (forall s, bcrypt_compare P s (bcrypt_hash P s) = true) ->
  answered (post_auth_signup P fullName email phone gender password created st)
  = 201 ->
  exists (message token token' : string) (user : UserInfo.t),
    fst (post_auth_signup P fullName email phone gender password created st)
    = mkResponse 201 (Session message token user)
    /\ post_auth_login P email password
         (snd (post_auth_signup P fullName email phone gender password
                                created st))
       = (res_json (Session "Login successful" token' user),
          snd (post_auth_signup P fullName email phone gender password
                                created st)).
Proof.
  intros Hhash H201.
  destruct (post_auth_signup_cases P fullName email phone gender password
              created st)
    as [[[H|H] _]|(u & e & s & Hrun & He & Hue & Hnew & Hrole & Hp & Hlen
                     & Hpw & _ & _)];
    try (rewrite H in H201; discriminate).
  rewrite Hrun. simpl.
  exists "User registered successfully",
    (jwt_sign P (User._id u) "customer"),
    (jwt_sign P (User._id u) (User.role u)), (info_of u).
  split; [reflexivity|].
  unfold post_auth_login, try_catch, bind.
  assert (Htr : truthy email = true /\ truthy password = true).
  { subst password. split.
    - destruct email; simpl in *; try discriminate; try reflexivity.
      + destruct b; [reflexivity|].
        revert H201. unfold answered, post_auth_signup, try_catch, bind.
        simpl. rewrite !orb_true_r. simpl. discriminate.
      + destruct (n =? 0)%Z eqn:Hn; [|reflexivity].
        revert H201. unfold answered, post_auth_signup, try_catch, bind.
        simpl. rewrite Hn. simpl. rewrite !orb_true_r. simpl. discriminate.
      + destruct (s0 =? EmptyString)%string eqn:Hn; [|reflexivity].
        revert H201. unfold answered, post_auth_signup, try_catch, bind.
        simpl. rewrite Hn. simpl. rewrite !orb_true_r. simpl. discriminate.
    - simpl. destruct s; [simpl in Hlen; lia | reflexivity]. }
  destruct Htr as [-> ->]. simpl.
  unfold User_findOne_email, gets. rewrite He. simpl.
  rewrite (find_app_none _ (Users st) u).
  - simpl. subst password. simpl. rewrite Hpw, Hhash. simpl.
    reflexivity.
  - apply find_none_iff. intros v Hv. apply String.eqb_neq.
    rewrite <- Hue. now apply Hnew.
  - apply String.eqb_eq. exact Hue.
Qed.

Lemma signup_then_login_witness :
  exists (message token token' : string) (user : UserInfo.t),
    fst (post_auth_signup sample_platform (JStr "Bob") (JStr "Bob@X.com")
           (JStr "5550101") (JStr "male") (JStr "password2") 2000 users_only)
    = mkResponse 201 (Session message token user)
    /\ post_auth_login sample_platform (JStr "Bob@X.com") (JStr "password2")
         (snd (post_auth_signup sample_platform (JStr "Bob")
                 (JStr "Bob@X.com") (JStr "5550101") (JStr "male")
                 (JStr "password2") 2000 users_only))
       = (res_json (Session "Login successful" token' user),
          snd (post_auth_signup sample_platform (JStr "Bob")
                 (JStr "Bob@X.com") (JStr "5550101") (JStr "male")
                 (JStr "password2") 2000 users_only)).
Proof.
  apply (signup_then_login sample_platform (JStr "Bob") (JStr "Bob@X.com")
           (JStr "5550101") (JStr "male") (JStr "password2") 2000 users_only).
  - intros s. simpl. apply String.eqb_refl.
  - reflexivity.
Defined.

(* ================================================================= *)
(** ** The profile of a token *)

Lemma fresh_id_above (st : Store) (i : ObjectId) :
  In i (all_ids st) -> (i < fresh_id st)%N.
Proof.
  unfold fresh_id. induction (all_ids st) as [|j r IH]; simpl; [tauto|].
  intros [->|H].
  - lia.
  - specialize (IH H). lia.
Qed.

Lemma fresh_id_no_user (st : Store) (v : User.t) :
  In v (Users st) -> (User._id v =? fresh_id st)%N = false.
Proof.
  intros Hv. apply N.eqb_neq.
  assert (User._id v < fresh_id st)%N; [|lia].
  apply fresh_id_above. unfold all_ids. apply in_or_app. left.
  now apply in_map.
Qed.

Lemma fresh_id_no_provider (st : Store) (q : Provider.t) :
  In q (Providers st) -> (Provider._id q =? fresh_id st)%N = false.
Proof.
  intros Hq. apply N.eqb_neq.
  assert (Provider._id q < fresh_id st)%N; [|lia].
  apply fresh_id_above. unfold all_ids. apply in_or_app. right.
  apply in_or_app. left. now apply in_map.
Qed.

(** X7: With a [verify] that reads back what [sign] made, the token a signup
    answers with resolves, at the profile route, to the user just stored:
    the same identifier, name, email and role, and no password. *)
Theorem signup_token_profile
  (P : Platform) (fullName email phone gender password : jsval) (created : Z)
  (st : Store) :
  (forall i r, jwt_verify P (jwt_sign P i r) = Some (mkAuth i r)) ->
  answered (post_auth_signup P fullName email phone gender password created st)
  = 201 ->
  exists (token : string) (user : UserInfo.t) (req : Auth) (p : Profile.t),
    fst (post_auth_signup P fullName email phone gender password created st)
    = mkResponse 201 (Session "User registered successfully" token user)
    /\ jwt_verify P token = Some req
    /\ get_auth_me req
         (snd (post_auth_signup P fullName email phone gender password
                                created st))
       = (reply_json (ProfileResult p),
          snd (post_auth_signup P fullName email phone gender password
                                created st))
    /\ Profile._id p = UserInfo.id user
    /\ Profile.fullName p = UserInfo.fullName user
    /\ Profile.email p = UserInfo.email user
    /\ Profile.role p = UserInfo.role user.
Proof.
  intros Hjwt H201.
  destruct (post_auth_signup_cases P fullName email phone gender password
              created st)
    as [[[H|H] _]|(u & e & s & Hrun & _ & _ & _ & _ & _ & _ & _ & _ & Hid)];
    try (rewrite H in H201; discriminate).
  rewrite Hrun. simpl.
  exists (jwt_sign P (User._id u) "customer"), (info_of u),
    (mkAuth (User._id u) "customer"), (profile_of u).
  split; [reflexivity|]. split; [apply Hjwt|].
  split; [|repeat split].
  unfold get_auth_me, try_reply, bind, gets, User_findById. simpl.
  rewrite (find_app_none _ (Users st) u); [reflexivity| |apply N.eqb_refl].
  apply find_none_iff. intros v Hv. rewrite Hid.
  now apply fresh_id_no_user.
Qed.

Lemma unary_token_round_trip (n : nat) (r : string) :
  read_unary_token (unary_token n r) = Some (mkAuth (N.of_nat n) r).
Proof.
  induction n as [|n IH].
  - reflexivity.
  - cbn [unary_token read_unary_token]. rewrite IH.
    cbn [option_map userId userRole]. now rewrite Nat2N.inj_succ.
Qed.

Lemma signup_token_profile_witness :
  exists (token : string) (user : UserInfo.t) (req : Auth) (p : Profile.t),
    fst (post_auth_signup token_platform (JStr "Bob") (JStr "Bob@X.com")
           (JStr "5550101") (JStr "male") (JStr "password2") 2000 users_only)
    = mkResponse 201 (Session "User registered successfully" token user)
    /\ jwt_verify token_platform token = Some req
    /\ Profile.email p = "bob@x.com"
    /\ Profile.role p = "customer".
Proof.
  destruct (signup_token_profile token_platform (JStr "Bob")
              (JStr "Bob@X.com") (JStr "5550101") (JStr "male")
              (JStr "password2") 2000 users_only)
    as (token & user & req & p & Hrun & Hv & _ & _ & _ & He & Hr).
  - intros i r. cbn [jwt_verify jwt_sign token_platform].
    rewrite unary_token_round_trip. now rewrite N2Nat.id.
  - reflexivity.
  - exists token, user, req, p.
    split; [exact Hrun|]. split; [exact Hv|].
    rewrite He, Hr. injection Hrun as _ <-. split; reflexivity.
Defined.

(* ================================================================= *)
(** ** Creating and listing one's bookings *)

Lemma post_bookings_cases
  (P : Platform) (req : Auth)
  (providerId service date time location amount : jsval) (now created : Z)
  (st : Store) :
  (answered (post_bookings P req providerId service date time location amount
                           now created st) = 500
   /\ snd (post_bookings P req providerId service date time location amount
                         now created st) = st)
  \/ exists p s d t l a,
       let b := Booking.mk (fresh_id st)
                  ("BK" ++ slice_last 6 (toString now))%string (userId req)
                  p s d t l a "pending" created in
       post_bookings P req providerId service date time location amount now
                     created st
       = (mkResponse 201 (BookingResult "Booking created successfully" b),
          mkStore (Users st) (Providers st) (Bookings st ++ [b]))
       /\ castObjectId providerId = Value p
       /\ castString service = Value s
       /\ castDate (Date_of P) date = Value d
       /\ castString time = Value t
       /\ castString location = Value l
       /\ castNumber amount = Value a
       /\ (forall c, In c (Bookings st) ->
                     Booking.bookingId c <> Booking.bookingId b).
Proof.
  unfold answered, post_bookings, try_catch, bind, Booking_save,
    Booking_validate.
  destruct (castObjectId providerId) as [|p|]; try now left.
  destruct (castString service) as [|s|]; try now left.
  destruct (castDate (Date_of P) date) as [|d|]; try now left.
  destruct (castString time) as [|t|]; try now left.
  destruct (castString location) as [|l|]; try now left.
  destruct (castNumber amount) as [|a|]; try now left.
  destruct (_ && _); [|now left].
  destruct (existsb _ (Bookings st)) eqn:Hex; [now left|].
  right. exists p, s, d, t, l, a. cbv zeta.
  repeat split.
  intros c Hc Heq. simpl in Heq.
  assert (Ht : existsb
                 (fun c => (Booking.bookingId c
                            =? "BK" ++ slice_last 6 (toString now))%string)
                 (Bookings st) = true).
  { apply existsb_exists. exists c. split; [exact Hc|].
    now apply String.eqb_eq. }
  congruence.
Qed.

(** X8: The whole effect of creating a booking.  The answer is 201 or 500, and
    the store changes only with 201: one booking is then added; its customer
    is the caller, whatever the body says, its other fields are the casts of
    the body, and no stored booking had its bookingId.  Whether the provider
    exists is not looked at. *)
Theorem post_bookings_effect
  (P : Platform) (req : Auth)
  (providerId service date time location amount : jsval) (now created : Z)
  (st : Store) :
  (answered (post_bookings P req providerId service date time location amount
                           now created st) = 500
   /\ snd (post_bookings P req providerId service date time location amount
                         now created st) = st)
  \/ exists b,
       post_bookings P req providerId service date time location amount now
                     created st
       = (mkResponse 201 (BookingResult "Booking created successfully" b),
          mkStore (Users st) (Providers st) (Bookings st ++ [b]))
       /\ Booking.customerId b = userId req
       /\ castObjectId providerId = Value (Booking.providerId b)
       /\ castString service = Value (Booking.service b)
       /\ castDate (Date_of P) date = Value (Booking.date b)
       /\ castString time = Value (Booking.time b)
       /\ castString location = Value (Booking.location b)
       /\ castNumber amount = Value (Booking.amount b)
       /\ Booking.createdAt b = created
       /\ (forall c, In c (Bookings st) ->
                     Booking.bookingId c <> Booking.bookingId b).
Proof.
  destruct (post_bookings_cases P req providerId service date time location
              amount now created st)
    as [H|(p & s & d & t & l & a & Hrun & Hp & Hs & Hd & Ht & Hl & Ha & Hnew)];
    [now left|].
  right. eexists. split; [exact Hrun|]. simpl.
  repeat split; assumption.
Qed.

Lemma decimal_digit_mod (n m : Z) (i : nat) :
  (i < 6)%nat -> (n mod 1000000 = m mod 1000000)%Z ->
  decimal_digit n i = decimal_digit m i.
Proof.
  intros Hi Hnm. unfold decimal_digit. f_equal.
  do 6 (destruct i as [|i]; [simpl Z.pow; Z.div_mod_to_equations; lia|]).
  lia.
Qed.

Lemma last_six_digits_mod (n m : Z) :
  (n mod 1000000 = m mod 1000000)%Z -> last_six_digits n = last_six_digits m.
Proof.
  intros H. unfold last_six_digits. f_equal.
  apply map_ext_in. intros i Hi. apply decimal_digit_mod; [|exact H].
  simpl in Hi. lia.
Qed.

(** X9: Two clock readings that agree modulo 1000000 ms make the same
    bookingId: once a booking is created at one of them, every creation at
    the other is answered 500 and stores nothing, whoever asks and whatever
    the body. *)
Theorem post_bookings_collision
  (P : Platform) (req1 req2 : Auth)
  (p1 s1 d1 t1 l1 a1 p2 s2 d2 t2 l2 a2 : jsval) (now1 created1 now2 created2 : Z)
  (st : Store) :
  (100000 <= now1)%Z -> (100000 <= now2)%Z ->
  (now1 mod 1000000 = now2 mod 1000000)%Z ->
  answered (post_bookings P req1 p1 s1 d1 t1 l1 a1 now1 created1 st) = 201 ->
  answered (post_bookings P req2 p2 s2 d2 t2 l2 a2 now2 created2
              (snd (post_bookings P req1 p1 s1 d1 t1 l1 a1 now1 created1 st)))
  = 500
  /\ snd (post_bookings P req2 p2 s2 d2 t2 l2 a2 now2 created2
            (snd (post_bookings P req1 p1 s1 d1 t1 l1 a1 now1 created1 st)))
     = snd (post_bookings P req1 p1 s1 d1 t1 l1 a1 now1 created1 st).
Proof.
  intros H1 H2 Hmod H201.
  destruct (post_bookings_cases P req1 p1 s1 d1 t1 l1 a1 now1 created1 st)
    as [[H _]|(p & s & d & t & l & a & Hrun & _)];
    [rewrite H in H201; discriminate|].
  cbv zeta in Hrun. rewrite Hrun. cbn [snd].
  unfold answered, post_bookings, try_catch, bind, Booking_save.
  destruct (Booking_validate _ _ _ _ _ _ _ _ _ _ _ _); [|now split].
  cbn [Bookings].
  replace (existsb _ _) with true; [now split|].
  symmetry. apply existsb_exists. eexists. split.
  - apply in_or_app. right. left. reflexivity.
  - simpl. apply String.eqb_eq.
    rewrite !slice_last_toString by assumption.
    now rewrite (last_six_digits_mod now1 now2 Hmod).
Qed.

Lemma post_bookings_collision_witness :
  answered (post_bookings sample_platform (mkAuth 1 "customer")
              (JStr "000000000000000000000002") (JStr "cleaning")
              (JStr "1700000000000") (JStr "11:00") (JStr "Pune") (JNum 900)
              1701000000123 1701000000124
              (snd (post_bookings sample_platform (mkAuth 1 "customer")
                      (JStr "000000000000000000000002") (JStr "plumbing")
                      (JStr "1700000000000") (JStr "10:00") (JStr "Pune")
                      (JNum 500) 1700000000123 1700000000124 users_only)))
  = 500.
Proof.
  apply (post_bookings_collision sample_platform (mkAuth 1 "customer")
           (mkAuth 1 "customer")
           (JStr "000000000000000000000002") (JStr "plumbing")
           (JStr "1700000000000") (JStr "10:00") (JStr "Pune") (JNum 500)
           (JStr "000000000000000000000002") (JStr "cleaning")
           (JStr "1700000000000") (JStr "11:00") (JStr "Pune") (JNum 900)
           1700000000123 1700000000124 1701000000123 1701000000124 users_only);
    try reflexivity; lia.
Defined.

Lemma map_bookingId_update_first (p : Booking.t -> bool) (s : string)
  (l : list Booking.t) :
  map Booking.bookingId (update_first p (set_status s) l)
  = map Booking.bookingId l.
Proof.
  induction l as [|b r IH]; simpl; [reflexivity|].
  destruct (p b); simpl; [reflexivity | now rewrite IH].
Qed.

(** X10: Creating a booking and updating a status keep the bookingIds of the
    stored bookings pairwise distinct. *)
Theorem bookingIds_stay_distinct
  (P : Platform) (req : Auth)
  (providerId service date time location amount status : jsval)
  (now created : Z) (id : string) (st : Store) :
  bookingIds_distinct st ->
  bookingIds_distinct
    (snd (post_bookings P req providerId service date time location amount
                        now created st))
  /\ bookingIds_distinct (snd (patch_bookings_status req id status st)).
Proof.
  unfold bookingIds_distinct. intros Hnd. split.
  - destruct (post_bookings_cases P req providerId service date time location
                amount now created st)
      as [[_ ->]|(p & s & d & t & l & a & Hrun & _ & _ & _ & _ & _ & _ & Hnew)];
      [exact Hnd|].
    cbv zeta in Hrun, Hnew. rewrite Hrun. cbn [snd Bookings].
    rewrite map_app. cbn [map].
    eapply Permutation_NoDup; [apply Permutation_cons_append|].
    constructor; [|exact Hnd].
    intros Hin. apply in_map_iff in Hin as (c & Hc & Hin).
    exact (Hnew c Hin Hc).
  - unfold patch_bookings_status, try_catch, bind,
      Booking_findByIdAndUpdate_status, gets, throw.
    destruct (ObjectId_of_string id) as [i|]; [|exact Hnd].
    destruct (castString status) as [|s|]; simpl.
    + now destruct (find _ (Bookings st)).
    + destruct (find _ (Bookings st)); simpl;
        now rewrite map_bookingId_update_first.
    + exact Hnd.
Qed.

Lemma bookingIds_stay_distinct_witness :
  bookingIds_distinct
    (snd (post_bookings sample_platform (mkAuth 1 "customer")
            (JStr "000000000000000000000002") (JStr "plumbing")
            (JStr "1700000000000") (JStr "10:00") (JStr "Pune") (JNum 500)
            1700000000321 1700000000322 sample_store))
  /\ bookingIds_distinct
       (snd (patch_bookings_status (mkAuth 1 "customer")
               "000000000000000000000003" (JStr "cancelled") sample_store)).
Proof.
  apply bookingIds_stay_distinct.
  unfold bookingIds_distinct. simpl.
  repeat constructor; simpl; intuition discriminate.
Defined.

Lemma Booking_find_customerId (c : ObjectId) (st : Store) :
  Booking_find (mkBookingQuery None (Some c) None) st = bookings_by c st.
Proof.
  unfold Booking_find, bookings_by. apply filter_ext. intros b.
  unfold Booking_matches. simpl. now rewrite andb_true_r.
Qed.

Lemma get_my_bookings_run (req : Auth) (st : Store) :
  get_my_bookings req st
  = (reply_json
       (MyBookingList
          (map (populate_my_booking st)
               (sort_desc Booking.createdAt (bookings_by (userId req) st)))),
     st).
Proof.
  unfold get_my_bookings, try_reply, bind, gets, ret.
  now rewrite Booking_find_customerId.
Qed.

Lemma my_listed_run (req : Auth) (st : Store) :
  my_listed (fst (get_my_bookings req st))
  = sort_desc Booking.createdAt (bookings_by (userId req) st).
Proof.
  rewrite get_my_bookings_run. unfold my_listed. simpl.
  rewrite map_map. simpl. apply map_id.
Qed.

(** X11: The caller's own bookings: the answer is 200, the store stays as it
    was, and the bookings listed are exactly those whose customer is the
    caller, whatever the caller's role, most recent first, each with the
    provider its providerId resolves to. *)
Theorem get_my_bookings_scope (req : Auth) (st : Store) :
  exists l,
    get_my_bookings req st = (reply_json (MyBookingList l), st)
    /\ Permutation (map MyBooking.doc l) (bookings_by (userId req) st)
    /\ most_recent_first (map MyBooking.doc l)
    /\ (forall m, In m l ->
                  MyBooking.providerId m
                  = Provider_findById (Booking.providerId (MyBooking.doc m)) st).
Proof.
  eexists. split; [apply get_my_bookings_run|].
  rewrite map_map. simpl. rewrite map_id.
  split; [apply sort_desc_perm|]. split; [apply sort_desc_sorted|].
  intros m Hm. apply in_map_iff in Hm as (b & <- & _). reflexivity.
Qed.

(** X12: A booking just created is in the caller's own list, and in nobody
    else's. *)
Theorem post_bookings_then_mine
  (P : Platform) (req other : Auth)
  (providerId service date time location amount : jsval) (now created : Z)
  (st : Store) (b : Booking.t) :
  fst (post_bookings P req providerId service date time location amount now
                     created st)
  = mkResponse 201 (BookingResult "Booking created successfully" b) ->
  In b (my_listed
          (fst (get_my_bookings req
                  (snd (post_bookings P req providerId service date time
                                      location amount now created st)))))
  /\ (userId other <> userId req ->
      ~ In b (my_listed
                (fst (get_my_bookings other
                        (snd (post_bookings P req providerId service date time
                                            location amount now created
                                            st)))))).
Proof.
  intros H201.
  destruct (post_bookings_cases P req providerId service date time location
              amount now created st)
    as [[H _]|(p & s & d & t & l & a & Hrun & _)].
  { unfold answered in H. rewrite H201 in H. discriminate. }
  cbv zeta in Hrun. rewrite Hrun in H201 |- *. cbn [fst snd] in *.
  injection H201 as <-.
  rewrite !my_listed_run.
  split.
  - eapply Permutation_in; [symmetry; apply sort_desc_perm|].
    unfold bookings_by. apply filter_In. cbn [Bookings]. split.
    + apply in_or_app. right. now left.
    + simpl. apply N.eqb_refl.
  - intros Hne Hin.
    eapply Permutation_in in Hin; [|apply sort_desc_perm].
    unfold bookings_by in Hin. apply filter_In in Hin as [_ Hc].
    simpl in Hc. apply N.eqb_eq in Hc. congruence.
Qed.

Lemma post_bookings_then_mine_witness :
  exists b,
    In b (my_listed
            (fst (get_my_bookings (mkAuth 1 "customer")
                    (snd (post_bookings sample_platform (mkAuth 1 "customer")
                            (JStr "000000000000000000000002") (JStr "plumbing")
                            (JStr "1700000000000") (JStr "10:00") (JStr "Pune")
                            (JNum 500) 1700000000123 1700000000124
                            users_only)))))
    /\ Booking.bookingId b = "BK000123".
Proof.
  eexists. split.
  - apply (post_bookings_then_mine sample_platform (mkAuth 1 "customer")
             (mkAuth 1 "customer")
             (JStr "000000000000000000000002") (JStr "plumbing")
             (JStr "1700000000000") (JStr "10:00") (JStr "Pune")
             (JNum 500) 1700000000123 1700000000124 users_only).
    reflexivity.
  - reflexivity.
Defined.

(* ================================================================= *)
(** ** A status update, seen from the statistics *)

Lemma get_dashboard_stats_run (req : Auth) (st : Store) (p : Provider.t) :
  userRole req = "provider" ->
  Provider_findOne_userId (userId req) st = Some p ->
  provider_stats (get_dashboard_stats req st)
  = Some (ProviderStats.mk
            (count (bookings_of p st))
            (count (with_status "pending" (bookings_of p st)))
            (count (with_status "completed" (bookings_of p st)))
            (revenue (with_status "completed" (bookings_of p st)))
            (Provider.rating p)).
Proof.
  intros Hrole Hp.
  unfold provider_stats, get_dashboard_stats, try_catch, bind, gets, ret.
  rewrite Hrole. simpl. rewrite Hp. simpl.
  unfold Booking_countDocuments, Booking_aggregate_total.
  rewrite Booking_find_providerId, !Booking_find_provider_status.
  unfold count, with_status, bookings_of, revenue.
  do 2 f_equal.
  destruct (filter _ (filter _ (Bookings st))) as [|b r] eqn:E;
    [reflexivity|].
  destruct (fold_right Z.add 0%Z (map Booking.amount (b :: r)) =? 0)%Z eqn:Z0;
    [|reflexivity].
  apply Z.eqb_eq in Z0. now rewrite Z0.
Qed.

Lemma bookings_of_app (p : Provider.t) (us : list User.t)
  (ps : list Provider.t) (l1 l2 : list Booking.t) :
  bookings_of p (mkStore us ps (l1 ++ l2))
  = bookings_of p (mkStore us ps l1) ++ bookings_of p (mkStore us ps l2).
Proof. unfold bookings_of. simpl. apply filter_app. Qed.

Lemma revenue_app (l1 l2 : list Booking.t) :
  revenue (l1 ++ l2) = (revenue l1 + revenue l2)%Z.
Proof.
  unfold revenue. induction l1 as [|b r IH]; simpl; [reflexivity|].
  rewrite IH. lia.
Qed.

Lemma owned_split (i : ObjectId) (pre post : list Booking.t) (x : Booking.t) :
  filter (fun c => (Booking.providerId c =? i)%N) (pre ++ x :: post)
  = filter (fun c => (Booking.providerId c =? i)%N) pre
    ++ (if (Booking.providerId x =? i)%N then [x] else [])
    ++ filter (fun c => (Booking.providerId c =? i)%N) post.
Proof.
  rewrite filter_app. simpl.
  now destruct (Booking.providerId x =? i)%N.
Qed.

Lemma completed_split (i : ObjectId) (pre post : list Booking.t)
  (x : Booking.t) :
  with_status "completed"
    (filter (fun c => (Booking.providerId c =? i)%N) (pre ++ x :: post))
  = with_status "completed"
      (filter (fun c => (Booking.providerId c =? i)%N) pre)
    ++ (if (Booking.providerId x =? i)%N
           && (Booking.status x =? "completed")%string
        then [x] else [])
    ++ with_status "completed"
         (filter (fun c => (Booking.providerId c =? i)%N) post).
Proof.
  rewrite owned_split. unfold with_status. rewrite !filter_app.
  destruct (Booking.providerId x =? i)%N; simpl; [|reflexivity].
  now destruct (Booking.status x =? "completed")%string.
Qed.

(** X13: Marking one of a provider's bookings completed, when it was not, shows
    in that provider's statistics: one more completed booking, the total
    revenue up by the booking's amount, the number of bookings as it was.
    Any caller can do it. *)
Theorem complete_then_stats
  (req anyone : Auth) (id : string) (i : ObjectId) (b : Booking.t)
  (p : Provider.t) (st : Store) :
  userRole req = "provider" ->
  Provider_findOne_userId (userId req) st = Some p ->
  ObjectId_of_string id = Some i ->
  find (fun c => (Booking._id c =? i)%N) (Bookings st) = Some b ->
  Booking.providerId b = Provider._id p ->
  Booking.status b <> "completed" ->
  exists s s',
    provider_stats (get_dashboard_stats req st) = Some s
    /\ provider_stats
         (get_dashboard_stats req
            (snd (patch_bookings_status anyone id (JStr "completed") st)))
       = Some s'
    /\ ProviderStats.totalBookings s' = ProviderStats.totalBookings s
    /\ ProviderStats.completedBookings s'
       = (ProviderStats.completedBookings s + 1)%Z
    /\ ProviderStats.totalRevenue s'
       = (ProviderStats.totalRevenue s + Booking.amount b)%Z.
Proof.
  intros Hrole Hp Hid Hb Hown Hst.
  destruct (find_some_first _ _ _ Hb) as (pre & post & Hl & Hx & Hpre).
  assert (Hrun : snd (patch_bookings_status anyone id (JStr "completed") st)
                 = mkStore (Users st) (Providers st)
                           (pre ++ set_status "completed" b :: post)).
  { unfold patch_bookings_status, try_catch, bind,
      Booking_findByIdAndUpdate_status.
    rewrite Hid. simpl. rewrite Hb. simpl.
    rewrite Hl at 1. now rewrite update_first_split. }
  rewrite Hrun.
  eexists. eexists.
  split; [apply (get_dashboard_stats_run req st p Hrole Hp)|].
  split; [apply (get_dashboard_stats_run req _ p Hrole); exact Hp|].
  apply String.eqb_neq in Hst. apply N.eqb_eq in Hown.
  cbn [ProviderStats.totalBookings ProviderStats.completedBookings
       ProviderStats.totalRevenue].
  unfold bookings_of. cbn [Bookings]. rewrite Hl.
  rewrite !completed_split, !owned_split.
  cbn [set_status Booking.providerId Booking.status].
  rewrite Hown, Hst. cbn [andb].
  replace ("completed" =? "completed")%string with true by reflexivity.
  unfold count. rewrite !length_app, !revenue_app.
  cbn [Datatypes.length].
  change (revenue [set_status "completed" b]) with (Booking.amount b + 0)%Z.
  change (revenue []) with 0%Z.
  repeat split; lia.
Qed.

Lemma complete_then_stats_witness :
  exists s s',
    provider_stats (get_dashboard_stats (mkAuth 1 "provider") sample_store)
    = Some s
    /\ provider_stats
         (get_dashboard_stats (mkAuth 1 "provider")
            (snd (patch_bookings_status (mkAuth 7 "customer")
                    "000000000000000000000004" (JStr "completed")
                    sample_store)))
       = Some s'
    /\ ProviderStats.totalRevenue s = 500%Z
    /\ ProviderStats.totalRevenue s' = 800%Z.
Proof.
  destruct (complete_then_stats (mkAuth 1 "provider") (mkAuth 7 "customer")
              "000000000000000000000004" 4 pending_300 ann_provider
              sample_store)
    as (s & s' & Hs & Hs' & _ & _ & Hrev); try reflexivity; [discriminate|].
  exists s, s'. split; [exact Hs|]. split; [exact Hs'|].
  assert (H500 : ProviderStats.totalRevenue s = 500%Z).
  { injection Hs as <-. reflexivity. }
  split; [exact H500|]. rewrite Hrev, H500. reflexivity.
Defined.

(* ================================================================= *)
(** ** Registered providers and the directory *)

Lemma post_providers_register_created
  (req : Auth) (services experience location availability : jsval)
  (created : Z) (st : Store) :
  answered (post_providers_register req services experience location
                                    availability created st) = 201 ->
  exists p,
    let st1 := mkStore (update_first (fun v => (User._id v =? userId req)%N)
                                     (set_role "provider") (Users st))
                       (Providers st) (Bookings st) in
    post_providers_register req services experience location availability
                            created st
    = (mkResponse 201 (ProviderResult "Provider registration successful" p),
       mkStore (Users st1) (Providers st ++ [p]) (Bookings st))
    /\ Provider._id p = fresh_id st1
    /\ Provider.userId p = userId req
    /\ Provider.verified p = false
    /\ Provider.rating p = 0%Z
    /\ Provider.totalReviews p = 0%Z
    /\ Provider_findOne_userId (userId req) st = None.
Proof.
  unfold answered, post_providers_register, try_catch, bind, gets.
  destruct (Provider_findOne_userId (userId req) st) eqn:Hp;
    [discriminate|].
  unfold User_findByIdAndUpdate_role, Provider_save, Provider_validate.
  cbn [fst snd Users Providers Bookings].
  destruct (_ || _); [discriminate|].
  intros _. eexists. cbv zeta. split; [reflexivity|].
  repeat split.
Qed.

(** X14: A provider registers once: after a registration answered 201, every
    other registration by the same caller is answered 400 and changes
    nothing. *)
Theorem post_providers_register_twice
  (req : Auth) (services experience location availability : jsval)
  (services' experience' location' availability' : jsval)
  (created created' : Z) (st : Store) :
  answered (post_providers_register req services experience location
                                    availability created st) = 201 ->
  post_providers_register req services' experience' location' availability'
    created'
    (snd (post_providers_register req services experience location
                                  availability created st))
  = (mkResponse 400 (Message "Already registered as provider"),
     snd (post_providers_register req services experience location
                                  availability created st)).
Proof.
  intros H201.
  destruct (post_providers_register_created _ _ _ _ _ _ _ H201)
    as (p & Hrun & _ & Hu & _ & _ & _ & Hnone).
  cbv zeta in Hrun. rewrite Hrun. cbn [snd].
  unfold post_providers_register at 1. unfold try_catch, bind, gets.
  unfold Provider_findOne_userId in *. cbn [Providers].
  rewrite (find_app_none _ (Providers st) p Hnone); [reflexivity|].
  apply N.eqb_eq. exact Hu.
Qed.

Lemma post_providers_register_twice_witness :
  answered
    (post_providers_register (mkAuth 1 "customer") (JArr [JStr "painting"])
       (JNum 1) (JStr "Pune") (JStr "weekends") 3000
       (snd (post_providers_register (mkAuth 1 "customer")
               (JArr [JStr "plumbing"]) (JNum 3) (JStr "Mumbai")
               (JStr "weekdays") 2000 users_only)))
  = 400.
Proof.
  unfold answered.
  rewrite (post_providers_register_twice (mkAuth 1 "customer")
             (JArr [JStr "plumbing"]) (JNum 3) (JStr "Mumbai")
             (JStr "weekdays") (JArr [JStr "painting"]) (JNum 1) (JStr "Pune")
             (JStr "weekends") 2000 3000 users_only eq_refl).
  reflexivity.
Defined.

Lemma contact_after_set_role (c i : ObjectId) (r : string) (l : list User.t) :
  option_map contact_of
    (find (fun u => (User._id u =? i)%N)
          (update_first (fun v => (User._id v =? c)%N) (set_role r) l))
  = option_map contact_of (find (fun u => (User._id u =? i)%N) l).
Proof.
  induction l as [|x t IH]; simpl; [reflexivity|].
  destruct (User._id x =? c)%N; simpl.
  - now destruct (User._id x =? i)%N.
  - destruct (User._id x =? i)%N; [reflexivity | exact IH].
Qed.

Lemma populate_provider_after_set_role (c : ObjectId) (r : string)
  (st : Store) (ps : list Provider.t) (bs : list Booking.t) (p : Provider.t) :
  populate_provider
    (mkStore (update_first (fun v => (User._id v =? c)%N) (set_role r)
                           (Users st)) ps bs) p
  = populate_provider st p.
Proof.
  unfold populate_provider, User_findById. cbn [Users].
  now rewrite contact_after_set_role.
Qed.

Lemma post_providers_register_outcome
  (req : Auth) (services experience location availability : jsval)
  (created : Z) (st : Store) :
  exists users' extra,
    snd (post_providers_register req services experience location availability
                                 created st)
    = mkStore users' (Providers st ++ extra) (Bookings st)
    /\ (users' = Users st
        \/ users' = update_first (fun v => (User._id v =? userId req)%N)
                                 (set_role "provider") (Users st))
    /\ (extra = []
        \/ exists p, extra = [p] /\ Provider.verified p = false
                     /\ Provider._id p
                        = fresh_id (mkStore users' (Providers st)
                                            (Bookings st))).
Proof.
  unfold post_providers_register, try_catch, bind, gets.
  destruct (Provider_findOne_userId (userId req) st).
  - exists (Users st), []. rewrite app_nil_r. destruct st; simpl.
    split; [reflexivity|]. split; now left.
  - unfold User_findByIdAndUpdate_role, Provider_save, Provider_validate.
    cbn [fst snd Users Providers Bookings].
    destruct (_ || _).
    + eexists. exists []. rewrite app_nil_r.
      split; [reflexivity|]. split; [now right | now left].
    + eexists. eexists. split; [reflexivity|].
      split; [now right|]. right. eexists. repeat split.
Qed.

(** X15: Registering does not show in the directory: whatever the filters and
    whatever the patterns mean, the list of providers is answered the same
    before and after a call to register, since a new provider is stored
    unverified. *)
Theorem post_providers_register_unlisted
  (req : Auth) (services experience location availability : jsval)
  (created : Z) (rest : RegExp.engine) (by_service by_location : option string)
  (st : Store) :
  fst (get_providers rest by_service by_location
         (snd (post_providers_register req services experience location
                                       availability created st)))
  = fst (get_providers rest by_service by_location st).
Proof.
  destruct (post_providers_register_outcome req services experience location
              availability created st)
    as (users' & extra & -> & Hu & He).
  assert (Hfind : forall q,
             q_verified q = Some true ->
             map (populate_provider
                    (mkStore users' (Providers st ++ extra) (Bookings st)))
                 (Provider_find q
                    (mkStore users' (Providers st ++ extra) (Bookings st)))
             = map (populate_provider st) (Provider_find q st)).
  { intros q Hv.
    replace (Provider_find q
               (mkStore users' (Providers st ++ extra) (Bookings st)))
      with (Provider_find q st).
    - apply map_ext. intros p.
      destruct Hu as [->| ->].
      + reflexivity.
      + apply populate_provider_after_set_role.
    - unfold Provider_find. cbn [Providers]. rewrite filter_app.
      destruct He as [->|(p & -> & Hp & _)]; simpl;
        [now rewrite app_nil_r|].
      unfold Provider_matches. rewrite Hv, Hp. simpl.
      now rewrite app_nil_r. }
  unfold get_providers, try_catch, bind, gets, ret, throw.
  destruct (given by_location) as [f|].
  - destruct (RegExp.new_RegExp_i rest f) as [search|]; [|reflexivity].
    destruct (given by_service); cbn [fst]; now rewrite Hfind.
  - destruct (given by_service); cbn [fst]; now rewrite Hfind.
Qed.

(** X16: A provider just registered is answered by its identifier, unverified
    as it is. *)
Theorem post_providers_register_then_get
  (req : Auth) (services experience location availability : jsval)
  (created : Z) (st : Store) (p : Provider.t) (id : string) :
  fst (post_providers_register req services experience location availability
                               created st)
  = mkResponse 201 (ProviderResult "Provider registration successful" p) ->
  ObjectId_of_string id = Some (Provider._id p) ->
  Provider.verified p = false
  /\ exists populated,
       get_provider id
         (snd (post_providers_register req services experience location
                                       availability created st))
       = (reply_json (ProviderProfile populated),
          snd (post_providers_register req services experience location
                                       availability created st))
       /\ PopulatedProvider.doc populated = p.
Proof.
  intros H201 Hid.
  assert (Ha : answered (post_providers_register req services experience
                           location availability created st) = 201).
  { unfold answered. now rewrite H201. }
  destruct (post_providers_register_created _ _ _ _ _ _ _ Ha)
    as (q & Hrun & Hfresh & _ & Hv & _).
  cbv zeta in Hrun, Hfresh. rewrite Hrun in H201 |- *. cbn [fst snd] in *.
  injection H201 as ->.
  split; [exact Hv|].
  unfold get_provider, try_reply, bind, Provider_findById_populated, gets, ret.
  rewrite Hid. cbn [fst snd]. unfold Provider_findById. cbn [Providers].
  rewrite (find_app_none _ (Providers st) p).
  - eexists. split; reflexivity.
  - apply find_none_iff. intros x Hx. rewrite Hfresh.
    apply (fresh_id_no_provider
             (mkStore (update_first (fun v => (User._id v =? userId req)%N)
                         (set_role "provider") (Users st))
                      (Providers st) (Bookings st)) x Hx).
  - apply N.eqb_refl.
Qed.

Lemma post_providers_register_then_get_witness :
  exists populated,
    get_provider "000000000000000000000002"
      (snd (post_providers_register (mkAuth 1 "customer")
              (JArr [JStr "plumbing"]) (JNum 3) (JStr "Mumbai")
              (JStr "weekdays") 2000 users_only))
    = (reply_json (ProviderProfile populated),
       snd (post_providers_register (mkAuth 1 "customer")
              (JArr [JStr "plumbing"]) (JNum 3) (JStr "Mumbai")
              (JStr "weekdays") 2000 users_only))
    /\ Provider.verified (PopulatedProvider.doc populated) = false.
Proof.
  destruct (post_providers_register_then_get (mkAuth 1 "customer")
              (JArr [JStr "plumbing"]) (JNum 3) (JStr "Mumbai")
              (JStr "weekdays") 2000 users_only
              (Provider.mk 2 1 ["plumbing"] (Some 3%Z) (Some "Mumbai")
                           (Some "weekdays") 0 0 false 2000)
              "000000000000000000000002" eq_refl eq_refl)
    as (Hv & populated & Hrun & Hdoc).
  exists populated. split; [exact Hrun|]. now rewrite Hdoc.
Defined.

(** X17: No route verifies a provider: signup, creating a booking, updating a
    status and registering all leave the verified providers as they were. *)
Theorem verified_providers_fixed
  (P : Platform) (req : Auth) (v1 v2 v3 v4 v5 v6 : jsval) (now created : Z)
  (id : string) (st : Store) :
  verified_providers (snd (post_auth_signup P v1 v2 v3 v4 v5 created st))
  = verified_providers st
  /\ verified_providers
       (snd (post_bookings P req v1 v2 v3 v4 v5 v6 now created st))
     = verified_providers st
  /\ verified_providers (snd (patch_bookings_status req id v1 st))
     = verified_providers st
  /\ verified_providers
       (snd (post_providers_register req v1 v2 v3 v4 created st))
     = verified_providers st.
Proof.
  unfold verified_providers. repeat split.
  - destruct (post_auth_signup_cases P v1 v2 v3 v4 v5 created st)
      as [[_ ->]|(u & e & s & -> & _)]; reflexivity.
  - destruct (post_bookings_cases P req v1 v2 v3 v4 v5 v6 now created st)
      as [[_ ->]|(p & s & d & t & l & a & Hrun & _)]; [reflexivity|].
    cbv zeta in Hrun. now rewrite Hrun.
  - unfold patch_bookings_status, try_catch, bind,
      Booking_findByIdAndUpdate_status, gets, throw.
    destruct (ObjectId_of_string id); [|reflexivity].
    destruct (castString v1); simpl; try reflexivity;
      now destruct (find _ (Bookings st)).
  - destruct (post_providers_register_outcome req v1 v2 v3 v4 created st)
      as (users' & extra & -> & _ & He).
    cbn [Providers]. rewrite filter_app.
    destruct He as [->|(p & -> & Hp & _)]; simpl; [apply app_nil_r|].
    rewrite Hp. apply app_nil_r.
Qed.

(* ================================================================= *)
(** ** The statistics, again *)

Lemma with_status_le (s : string) (l : list Booking.t) :
  (count (with_status s l) <= count l)%Z.
Proof.
  unfold count, with_status. apply Nat2Z.inj_le. apply filter_length_le.
Qed.

Lemma pending_completed_le (l : list Booking.t) :
  (count (with_status "pending" l) + count (with_status "completed" l)
   <= count l)%Z.
Proof.
  unfold count, with_status.
  induction l as [|b r IH]; simpl; [lia|].
  destruct (Booking.status b =? "pending")%string eqn:Ep;
    destruct (Booking.status b =? "completed")%string eqn:Ec;
    simpl Datatypes.length; try lia.
  apply String.eqb_eq in Ep. apply String.eqb_eq in Ec. congruence.
Qed.

(** X18: Whatever the store, the statistics of a provider are consistent: the
    pending and the completed bookings together are at most the total, and
    no count is negative. *)
Theorem get_dashboard_stats_consistent
  (req : Auth) (st : Store) (s : ProviderStats.t) :
  provider_stats (get_dashboard_stats req st) = Some s ->
  (0 <= ProviderStats.pendingBookings s)%Z
  /\ (0 <= ProviderStats.completedBookings s)%Z
  /\ (ProviderStats.pendingBookings s + ProviderStats.completedBookings s
      <= ProviderStats.totalBookings s)%Z.
Proof.
  intros Hs.
  destruct (userRole req =? "provider")%string eqn:Hrole.
  - apply String.eqb_eq in Hrole.
    destruct (Provider_findOne_userId (userId req) st) as [p|] eqn:Hp.
    + rewrite (get_dashboard_stats_run req st p Hrole Hp) in Hs.
      injection Hs as <-. simpl.
      pose proof (pending_completed_le (bookings_of p st)).
      unfold count in *. lia.
    + revert Hs.
      unfold provider_stats, get_dashboard_stats, try_catch, bind, gets, ret.
      rewrite Hrole. simpl. rewrite Hp. discriminate.
  - revert Hs.
    unfold provider_stats, get_dashboard_stats, try_catch, bind, gets, ret.
    rewrite Hrole. discriminate.
Qed.

Lemma get_dashboard_stats_consistent_witness :
  provider_stats (get_dashboard_stats (mkAuth 1 "provider") sample_store)
  = Some (ProviderStats.mk 2 1 1 500 4)
  /\ (0 <= 1)%Z /\ (0 <= 1)%Z /\ (1 + 1 <= 2)%Z.
Proof.
  split; [reflexivity|].
  exact (get_dashboard_stats_consistent (mkAuth 1 "provider") sample_store
           (ProviderStats.mk 2 1 1 500 4) eq_refl).
Defined.

(** X19: For a caller whose role is not provider, the statistics are those of
    the caller as a customer, whether or not a Provider record is stored for
    the caller: the number of the caller's bookings and, at most that, the
    number of the pending ones; the store stays as it was. *)
Theorem get_dashboard_stats_customer (req : Auth) (st : Store) :
  userRole req <> "provider" ->
  get_dashboard_stats req st
  = (res_json
       (CustomerStatsResult
          (CustomerStats.mk
             (count (bookings_by (userId req) st))
             (count (with_status "pending" (bookings_by (userId req) st))))),
     st)
  /\ (count (with_status "pending" (bookings_by (userId req) st))
      <= count (bookings_by (userId req) st))%Z.
Proof.
  intros Hrole. split; [|apply with_status_le].
  apply String.eqb_neq in Hrole.
  unfold get_dashboard_stats, try_catch, bind, gets, ret. rewrite Hrole.
  unfold Booking_countDocuments. rewrite Booking_find_customerId.
  do 4 f_equal.
  unfold count, with_status, bookings_by, Booking_find, Booking_matches.
  simpl. f_equal. f_equal.
  induction (Bookings st) as [|b r IH]; simpl; [reflexivity|].
  destruct (Booking.customerId b =? userId req)%N; simpl; [|exact IH].
  destruct (Booking.status b =? "pending")%string; now rewrite IH.
Qed.

Lemma get_dashboard_stats_customer_witness :
  get_dashboard_stats (mkAuth 1 "customer") sample_store
  = (res_json (CustomerStatsResult (CustomerStats.mk 3 1)), sample_store).
Proof.
  apply (get_dashboard_stats_customer (mkAuth 1 "customer") sample_store).
  discriminate.
Defined.

(* ================================================================= *)
(** ** The contact form *)

Lemma fresh_contact_id_above (contacts : list Contact.t) (c : Contact.t) :
  In c contacts -> (Contact._id c < fresh_contact_id contacts)%N.
Proof.
  unfold fresh_contact_id.
  induction contacts as [|d r IH]; simpl; [tauto|].
  intros [->|H].
  - lia.
  - specialize (IH H). lia.
Qed.

(** X20: The whole effect of a submission.  With one of name, email, subject and
    message missing or empty the answer is 400; otherwise it is 201 or, when
    a field cannot be cast, 500.  The contacts change only with 201: one is
    then added, with the status new, the four fields as cast, the phone when
    there is one, and an identifier no stored contact has. *)
Theorem post_contact_effect
  (name email phone subject message : jsval) (created : Z)
  (contacts : list Contact.t) :
  (truthy name && truthy email && truthy subject && truthy message = false ->
   post_contact name email phone subject message created contacts
   = (mkReply 400 (Basic (Message "Required fields missing")), contacts))
  /\ (truthy name && truthy email && truthy subject && truthy message = true ->
      post_contact name email phone subject message created contacts
      = (reply_error (ValidationError "Contact"), contacts)
      \/ exists c,
           post_contact name email phone subject message created contacts
           = (mkReply 201
                (ContactResult
                   "Thank you for contacting us! We will get back to you soon."
                   c),
              contacts ++ [c])
           /\ Contact.status c = "new"
           /\ castString name = Value (Contact.name c)
           /\ castString email = Value (Contact.email c)
           /\ castString subject = Value (Contact.subject c)
           /\ castString message = Value (Contact.message c)
           /\ Contact.phone c = opt_of_cast (castString phone)
           /\ Contact.createdAt c = created
           /\ (forall d, In d contacts -> Contact._id d <> Contact._id c)).
Proof.
  unfold post_contact. split; intros H.
  - replace (_ || _) with true; [reflexivity|].
    symmetry.
    destruct (truthy name), (truthy email), (truthy subject),
      (truthy message); simpl in *; try reflexivity; discriminate.
  - replace (_ || _) with false.
    2:{ symmetry.
        destruct (truthy name), (truthy email), (truthy subject),
          (truthy message); simpl in *; try reflexivity; discriminate. }
    unfold Contact_validate.
    destruct (castString name) as [|n|]; try now left.
    destruct (castString email) as [|e|]; try now left.
    destruct (castString subject) as [|s|]; try now left.
    destruct (castString message) as [|m|]; try now left.
    destruct (required_string n && required_string e && required_string s
              && required_string m && negb (is_invalid (castString phone)));
      [|now left].
    right. eexists. split; [reflexivity|]. simpl.
    repeat split.
    intros d Hd Heq. apply fresh_contact_id_above in Hd. lia.
Qed.

(** X21: The list of contacts: every authenticated caller, whatever the role,
    is answered all the contacts, most recent first, and the contacts stay
    as they were. *)
Theorem get_contact_all (req : Auth) (contacts : list Contact.t) :
  exists l,
    get_contact req contacts = (reply_json (ContactList l), contacts)
    /\ Permutation l contacts
    /\ StronglySorted
         (fun a b => (Contact.createdAt b <= Contact.createdAt a)%Z) l
    /\ forall other, get_contact other contacts = get_contact req contacts.
Proof.
  eexists. split; [reflexivity|].
  split; [apply sort_desc_perm|]. split; [apply sort_desc_sorted|].
  reflexivity.
Qed.

(** X22: A contact just submitted is in the list every caller is answered. *)
Theorem post_contact_then_listed
  (name email phone subject message : jsval) (created : Z)
  (contacts : list Contact.t) (c : Contact.t) (m : string) (req : Auth) :
  fst (post_contact name email phone subject message created contacts)
  = mkReply 201 (ContactResult m c) ->
  exists l,
    fst (get_contact req
           (snd (post_contact name email phone subject message created
                              contacts)))
    = reply_json (ContactList l)
    /\ In c l
    /\ List.length l = S (List.length contacts).
Proof.
  intros H201.
  assert (Hsnd : snd (post_contact name email phone subject message created
                                   contacts) = contacts ++ [c]).
  { revert H201. unfold post_contact.
    destruct (_ || _); [discriminate|].
    destruct (Contact_validate _ _ _ _ _ _ _); [|discriminate].
    simpl. now intros [= _ <-]. }
  rewrite Hsnd. unfold get_contact. cbn [fst].
  eexists. split; [reflexivity|]. split.
  - eapply Permutation_in; [symmetry; apply sort_desc_perm|].
    apply in_or_app. right. now left.
  - rewrite (Permutation_length (sort_desc_perm Contact.createdAt _)).
    rewrite length_app. simpl. lia.
Qed.

Lemma post_contact_then_listed_witness :
  exists l c,
    fst (get_contact (mkAuth 1 "customer")
           (snd (post_contact (JStr "Bob") (JStr "bob@x.com") JUndefined
                   (JStr "Quote") (JStr "How much for a tap?") 5000 [])))
    = reply_json (ContactList l)
    /\ In c l
    /\ Contact.status c = "new"
    /\ Contact.phone c = None.
Proof.
  destruct (post_contact_then_listed (JStr "Bob") (JStr "bob@x.com")
              JUndefined (JStr "Quote") (JStr "How much for a tap?") 5000 []
              (Contact.mk 1 "Bob" "bob@x.com" None "Quote"
                          "How much for a tap?" "new" 5000)
              "Thank you for contacting us! We will get back to you soon."
              (mkAuth 1 "customer") eq_refl)
    as (l & Hrun & Hin & _).
  exists l. eexists. split; [exact Hrun|]. split; [exact Hin|].
  split; reflexivity.
Defined.
